(** * Verification of the AI travel planner (ai_planner.py and app.py)

    Shallow embedding of the two Python modules of the repository:
    - [ai_planner.py]: the pydantic schema (Activity, DailyPlan,
      TripItinerary), the prompt construction and [generate_itinerary];
    - [app.py]: the Streamlit session slot updated by the generate button,
      and the map rendering (coordinates, palette, markers).

    A Python str is modelled as the [string] of its UTF-8 bytes (a lone
    surrogate in its three-byte form); Python ints as [Z]; Python floats as
    exact decimal values with the three non-finite IEEE values, of the
    rounding to binary64 only the overflow to an infinity and the
    underflow to zero. *)

From Stdlib Require Import ZArith List Bool Ascii String Lia.
From Stdlib Require Import Numbers.DecimalString.
Import ListNotations.

#[local] Set Warnings "-register-all".

Open Scope Z_scope.
Open Scope string_scope.

(* ------------------------------------------------------------------ *)
(** ** Python values produced by [json.loads] *)

(** A Python float: a finite decimal [mant * 10^exp10], or inf, -inf, nan. *)
Inductive PyFloat :=
| Fin (mant : Z) (exp10 : Z)
| PosInf
| NegInf
| NaN.

(** The Python value [json.loads] returns: None, bool, int, float, str,
    list, dict (a dict as an association list in insertion order). *)
Inductive Json :=
| JNull
| JBool (b : bool)
| JInt (z : Z)
| JFloat (f : PyFloat)
| JStr (s : string)
| JArr (l : list Json)
| JObj (kv : list (string * Json)).

(** Python [str(n)] of an int. *)
Definition py_str_int (n : Z) : string :=
  NilEmpty.string_of_int (Z.to_int n).

Definition char (n : nat) : string := String (ascii_of_nat n) EmptyString.
Definition nl : string := char 10.

(** [dict[k] = v]: an existing key keeps its position and takes the new
    value; a new key goes last. *)
Fixpoint dict_set (k : string) (v : Json) (d : list (string * Json))
  : list (string * Json) :=
  match d with
  | [] => [(k, v)]
  | (k', v') :: d' =>
      if String.eqb k k' then (k, v) :: d' else (k', v') :: dict_set k v d'
  end.

(** [d.get(k)] *)
Fixpoint dict_get (k : string) (d : list (string * Json)) : option Json :=
  match d with
  | [] => None
  | (k', v) :: d' => if String.eqb k k' then Some v else dict_get k d'
  end.

(* ------------------------------------------------------------------ *)
(** ** [json.loads] (json/__init__.py and json/decoder.py, scanning with
    the C accelerator of CPython 3.12, Modules/_json.c, strict mode)

    A decoding error carries its message and the unconsumed input at the
    error position; the position is recovered from the input length.  The
    two other exceptions [json.loads] can raise are the int-to-str digit
    limit of [int()] and the interpreter's RecursionError. *)

Inductive JErr :=
| mkJErr (jmsg : string) (jrest : string)   (* JSONDecodeError(msg, doc, pos) *)
| JIntLimit (digits : Z)                    (* ValueError from PyLong_FromString *)
| JRecursion (what : string).               (* RecursionError *)

Definition PRes (A : Type) := (JErr + (A * string))%type.

Definition pbind {A B} (m : PRes A) (k : A -> string -> PRes B) : PRes B :=
  match m with
  | inl e => inl e
  | inr (a, r) => k a r
  end.

Notation "'let*' ( x , r ) := m 'in' k" := (pbind m (fun x r => k))
  (at level 200, x name, r name).

Definition fail {A} (msg : string) (at_ : string) : PRes A :=
  inl (mkJErr msg at_).

(** A byte that continues a UTF-8 sequence: it is not a code point of its
    own. *)
Definition is_cont (c : ascii) : bool :=
  let n := nat_of_ascii c in (128 <=? n)%nat && (n <? 192)%nat.

(** [len(s)]: the number of code points of [s]. *)
Fixpoint py_len (s : string) : nat :=
  match s with
  | EmptyString => 0
  | String c r => ((if is_cont c then 0 else 1) + py_len r)%nat
  end.

Definition byte (n : Z) : ascii := ascii_of_nat (Z.to_nat n).

(** [chr(cp)] in UTF-8 (a lone surrogate in the three-byte form that
    Python's surrogatepass handler gives it). *)
Definition utf8 (cp : Z) : string :=
  (if cp <? 128 then String (byte cp) EmptyString
   else if cp <? 2048 then
     String (byte (192 + cp / 64)) (String (byte (128 + cp mod 64)) EmptyString)
   else if cp <? 65536 then
     String (byte (224 + cp / 4096))
       (String (byte (128 + (cp / 64) mod 64))
          (String (byte (128 + cp mod 64)) EmptyString))
   else
     String (byte (240 + cp / 262144))
       (String (byte (128 + (cp / 4096) mod 64))
          (String (byte (128 + (cp / 64) mod 64))
             (String (byte (128 + cp mod 64)) EmptyString))))%Z.

Definition is_ws (c : ascii) : bool :=
  match nat_of_ascii c with 32 | 9 | 10 | 13 => true | _ => false end%nat.

(** WHITESPACE.match(s, end).end(), and IS_WHITESPACE in the C scanner *)
Fixpoint skip_ws (s : string) : string :=
  match s with
  | String c r => if is_ws c then skip_ws r else s
  | EmptyString => s
  end.

Definition is_digit (c : ascii) : bool :=
  let n := nat_of_ascii c in (48 <=? n)%nat && (n <=? 57)%nat.

Definition digit_val (c : ascii) : Z := Z.of_nat (nat_of_ascii c) - 48.

(** The digits at the head of [s], their count and value. *)
Fixpoint take_digits (s : string) (acc : Z) (cnt : Z) : Z * Z * string :=
  match s with
  | String c r =>
      if is_digit c then take_digits r (acc * 10 + digit_val c) (cnt + 1)
      else (acc, cnt, s)
  | EmptyString => (acc, cnt, s)
  end.

Definition starts_with (p s : string) : bool := String.prefix p s.

Definition drop (n : nat) (s : string) : string :=
  substring n (String.length s - n) s.

(** The number of decimal digits of [a > 0]. *)
Definition ndigits (a : Z) : Z := Z.of_nat (String.length (py_str_int a)).

(** The largest double rounded to nearest is below [2^1024 - 2^970]: a
    decimal at or above it becomes inf.  *)
Definition overflow_bound : Z := 2 ^ 1024 - 2 ^ 970.

(** [a * 10^e >= 2^1024 - 2^970], for [a > 0]. *)
Definition float_overflows (a e : Z) : bool :=
  (if 309 <=? e then true
   else if 0 <=? e then overflow_bound <=? a * 10 ^ e
   else if ndigits a + e <=? 308 then false
   else overflow_bound * 10 ^ (- e) <=? a)%Z.

(** [a * 10^e <= 2^-1075] (half the least subnormal), for [a > 0]: the
    decimal rounds to zero. *)
Definition float_underflows (a e : Z) : bool :=
  (if 0 <=? e then false
   else if ndigits a + e <? -324 then true
   else a * 2 ^ 1075 <=? 10 ^ (- e))%Z.

(** [float(text)] (PyFloat_FromString) of the literal [m * 10^e]: the
    correctly rounded double.  The value is kept as the exact decimal; of
    the rounding, the two cases that change the kind of value are written
    out: beyond the largest double it is an infinity, below half the least
    subnormal it is zero (the sign of a negative zero is not kept). *)
Definition py_float (m e : Z) : PyFloat :=
  (if m =? 0 then Fin 0 e
   else if float_overflows (Z.abs m) e then (if m <? 0 then NegInf else PosInf)
   else if float_underflows (Z.abs m) e then Fin 0 e
   else Fin m e)%Z.

(** _match_number_unicode: an optional [-], then [0] or a digit [1-9]
    followed by any digits, then [.] with at least one digit, then [e]/[E] with an optional sign and at least one digit
    (else the exponent is given back).  An int when neither fraction nor
    exponent is present ([int(text)]), else [float(text)]. *)
Definition match_number (s : string) : option (Json * string) :=
  let '(neg, s1) :=
    match s with String "-"%char r => (true, r) | _ => (false, s) end in
  let int_part :=
    match s1 with
    | String "0"%char r => Some (0, r)
    | String c r =>
        if is_digit c then
          let '(v, _, r') := take_digits r (digit_val c) 1 in Some (v, r')
        else None
    | EmptyString => None
    end in
  match int_part with
  | None => None
  | Some (iv, s2) =>
      let '(frac, s3) :=
        match s2 with
        | String "."%char (String c _ as r) =>
            if is_digit c then
              let '(fv, fc, r') := take_digits r 0 0 in (Some (fv, fc), r')
            else (None, s2)
        | _ => (None, s2)
        end in
      let '(expo, s4) :=
        match s3 with
        | String e r =>
            if Ascii.eqb e "e"%char || Ascii.eqb e "E"%char then
              let '(eneg, r1) :=
                match r with
                | String "-"%char r' => (true, r')
                | String "+"%char r' => (false, r')
                | _ => (false, r)
                end in
              match r1 with
              | String c _ =>
                  if is_digit c then
                    let '(ev, _, r') := take_digits r1 0 0 in
                    (Some (if eneg then - ev else ev), r')
                  else (None, s3)
              | EmptyString => (None, s3)
              end
            else (None, s3)
        | EmptyString => (None, s3)
        end in
      let sgn (z : Z) := if neg then - z else z in
      match frac, expo with
      | None, None => Some (JInt (sgn iv), s4)
      | _, _ =>
          let '(m, fc) :=
            match frac with
            | Some (fv, fc) => (iv * 10 ^ fc + fv, fc)
            | None => (iv, 0)
            end in
          let e := match expo with Some ev => ev | None => 0 end in
          Some (JFloat (py_float (sgn m) (e - fc)), s4)
      end
  end.

(** sys.get_int_max_str_digits() at its default. *)
Definition int_max_str_digits : Z := 4300.

(** [int(text)] refuses a literal of more than 4300 digits. *)
Definition int_value (j : Json) (r : string) : PRes Json :=
  match j with
  | JInt z =>
      if (int_max_str_digits <? ndigits (Z.abs z))%Z then inl (JIntLimit (ndigits (Z.abs z)))
      else inr (j, r)
  | _ => inr (j, r)
  end.

Definition hex_val (c : ascii) : option Z :=
  let n := Z.of_nat (nat_of_ascii c) in
  if ((48 <=? n) && (n <=? 57))%Z then Some (n - 48)
  else if ((97 <=? n) && (n <=? 102))%Z then Some (n - 87)
  else if ((65 <=? n) && (n <=? 70))%Z then Some (n - 55)
  else None.

(** The value of four hex digits. *)
Definition hex4 (h1 h2 h3 h4 : ascii) : option Z :=
  match hex_val h1, hex_val h2, hex_val h3, hex_val h4 with
  | Some a, Some b, Some c, Some d => Some (((a * 16 + b) * 16 + c) * 16 + d)
  | _, _, _, _ => None
  end.

Definition is_high_surrogate (v : Z) : bool := ((55296 <=? v) && (v <=? 56319))%Z.
Definition is_low_surrogate (v : Z) : bool := ((56320 <=? v) && (v <=? 57343))%Z.

(** [Py_UNICODE_JOIN_SURROGATES] *)
Definition join_surrogates (hi lo : Z) : Z :=
  65536 + (hi - 55296) * 1024 + (lo - 56320).

(** The character a one-character escape [\e] stands for (the switch of
    scanstring_unicode), by character code. *)
Definition backslash_escape (e : nat) : option ascii :=
  match e with
  | 34 => Some (ascii_of_nat 34)
  | 92 => Some (ascii_of_nat 92)
  | 47 => Some (ascii_of_nat 47)
  | 98 => Some (ascii_of_nat 8)
  | 102 => Some (ascii_of_nat 12)
  | 110 => Some (ascii_of_nat 10)
  | 114 => Some (ascii_of_nat 13)
  | 116 => Some (ascii_of_nat 9)
  | _ => None
  end%nat.

(** scanstring_unicode, after the opening quote.  [start] is the input at
    the opening quote (for "Unterminated string starting at").  A [\u]
    escape needs at least five characters after the [u] ([end >= len]
    fails); a high surrogate is joined with a following [\u] low surrogate
    when at least seven characters follow its digits ([end + 6 < len]),
    and otherwise stands alone. *)
Fixpoint scanstring (start s : string) : PRes string :=
  match s with
  | EmptyString => fail "Unterminated string starting at" start
  | String c r =>
      if (nat_of_ascii c =? 34)%nat then inr (EmptyString, r)
      else if (nat_of_ascii c =? 92)%nat then
        match r with
        | EmptyString => fail "Unterminated string starting at" start
        | String e r' =>
            if (nat_of_ascii e =? 117)%nat then
              if (py_len r' <? 5)%nat then fail "Invalid \uXXXX escape" r
              else
                match r' with
                | String h1 (String h2 (String h3 (String h4 r''))) =>
                    match hex4 h1 h2 h3 h4 with
                    | None => fail "Invalid \uXXXX escape" r
                    | Some v =>
                        let single :=
                          let* (tl, r2) := scanstring start r'' in inr (utf8 v ++ tl, r2) in
                        if is_high_surrogate v && (7 <=? py_len r'')%nat then
                          match r'' with
                          | String b (String u (String g1 (String g2 (String g3 (String g4 r4))))) =>
                              if (nat_of_ascii b =? 92)%nat && (nat_of_ascii u =? 117)%nat then
                                match hex4 g1 g2 g3 g4 with
                                | None =>
                                    fail "Invalid \uXXXX escape"
                                      (String u (String g1 (String g2 (String g3 (String g4 r4)))))
                                | Some v2 =>
                                    if is_low_surrogate v2 then
                                      let* (tl, r2) := scanstring start r4 in
                                      inr (utf8 (join_surrogates v v2) ++ tl, r2)
                                    else single
                                end
                              else single
                          | _ => single
                          end
                        else single
                    end
                | _ => fail "Invalid \uXXXX escape" r
                end
            else
              match backslash_escape (nat_of_ascii e) with
              | Some ch =>
                  let* (tl, r2) := scanstring start r' in inr (String ch tl, r2)
              | None => fail "Invalid \escape" s
              end
        end
      else if (nat_of_ascii c <? 32)%nat then
        fail "Invalid control character at" s
      else
        let* (tl, r2) := scanstring start r in inr (String c tl, r2)
  end.

Definition code_is (n : nat) (c : ascii) : bool := (nat_of_ascii c =? n)%nat.

(** scan_once_unicode, _parse_object_unicode and _parse_array_unicode.
    [fuel] bounds the depth of calls; [json_loads] gives more than the
    input can use (each level of nesting consumes a character), so the
    interpreter's recursion limit, which depends on the caller's stack, is
    not reached in this model.  [parse_object] is entered after the [{]
    and [object_members] at the opening quote of a key; [parse_array]
    after the [[] and [array_items] at the start of an element.  A dict is
    built as PyDict_SetItem does: a repeated key keeps its first position
    and takes its last value. *)
Fixpoint scan_once (fuel : nat) (s : string) {struct fuel} : PRes Json :=
  match fuel with
  | O => inl (JRecursion " while decoding a JSON object from a unicode string")
  | S f =>
      match s with
      | EmptyString => fail "Expecting value" s
      | String c r =>
          if code_is 34 c then
            let* (v, r') := scanstring s r in inr (JStr v, r')
          else if code_is 123 c then parse_object f r
          else if code_is 91 c then parse_array f r
          else if code_is 110 c && starts_with "null" s then inr (JNull, drop 4 s)
          else if code_is 116 c && starts_with "true" s then inr (JBool true, drop 4 s)
          else if code_is 102 c && starts_with "false" s then inr (JBool false, drop 5 s)
          else if code_is 78 c && starts_with "NaN" s then inr (JFloat NaN, drop 3 s)
          else if code_is 73 c && starts_with "Infinity" s then
            inr (JFloat PosInf, drop 8 s)
          else if code_is 45 c && starts_with "-Infinity" s then
            inr (JFloat NegInf, drop 9 s)
          else
            match match_number s with
            | Some (j, r') => int_value j r'
            | None => fail "Expecting value" s
            end
      end
  end
with parse_object (fuel : nat) (s : string) {struct fuel} : PRes Json :=
  match fuel with
  | O => inl (JRecursion " while decoding a JSON object from a unicode string")
  | S f =>
      let s1 := skip_ws s in
      match s1 with
      | String c r =>
          if code_is 34 c then object_members f [] s1
          else if code_is 125 c then inr (JObj [], r)
          else fail "Expecting property name enclosed in double quotes" s1
      | EmptyString => fail "Expecting property name enclosed in double quotes" s1
      end
  end
with object_members (fuel : nat) (pairs : list (string * Json)) (s : string)
  {struct fuel} : PRes Json :=
  match fuel with
  | O => inl (JRecursion " while decoding a JSON object from a unicode string")
  | S f =>
      match s with
      | EmptyString => fail "Expecting property name enclosed in double quotes" s
      | String _ r =>
          let* (key, r1) := scanstring s r in
          let r2 := skip_ws r1 in
          match r2 with
          | String c r3 =>
              if code_is 58 c then
                let* (v, r4) := scan_once f (skip_ws r3) in
                let pairs' := dict_set key v pairs in
                let r5 := skip_ws r4 in
                match r5 with
                | String d r6 =>
                    if code_is 125 d then inr (JObj pairs', r6)
                    else if code_is 44 d then
                      let r7 := skip_ws r6 in
                      match r7 with
                      | String q _ =>
                          if code_is 34 q then object_members f pairs' r7
                          else fail "Expecting property name enclosed in double quotes" r7
                      | EmptyString =>
                          fail "Expecting property name enclosed in double quotes" r7
                      end
                    else fail "Expecting ',' delimiter" r5
                | EmptyString => fail "Expecting ',' delimiter" r5
                end
              else fail "Expecting ':' delimiter" r2
          | EmptyString => fail "Expecting ':' delimiter" r2
          end
      end
  end
with parse_array (fuel : nat) (s : string) {struct fuel} : PRes Json :=
  match fuel with
  | O => inl (JRecursion " while decoding a JSON array from a unicode string")
  | S f =>
      let s1 := skip_ws s in
      match s1 with
      | String c r =>
          if code_is 93 c then inr (JArr [], r) else array_items f [] s1
      | EmptyString => array_items f [] s1
      end
  end
with array_items (fuel : nat) (acc : list Json) (s : string) {struct fuel}
  : PRes Json :=
  match fuel with
  | O => inl (JRecursion " while decoding a JSON array from a unicode string")
  | S f =>
      let* (v, r) := scan_once f s in
      let r1 := skip_ws r in
      match r1 with
      | String c r2 =>
          if code_is 93 c then inr (JArr (rev (v :: acc)), r2)
          else if code_is 44 c then array_items f (v :: acc) (skip_ws r2)
          else fail "Expecting ',' delimiter" r1
      | EmptyString => fail "Expecting ',' delimiter" r1
      end
  end.

(** json.loads on a str: refuse a leading BOM (U+FEFF); then
    JSONDecoder.decode: skip leading whitespace, scan one value, skip
    trailing whitespace, and reject anything left as "Extra data". *)
Definition json_loads (doc : string) : JErr + Json :=
  if starts_with (utf8 65279) doc then
    inl (mkJErr "Unexpected UTF-8 BOM (decode using utf-8-sig)" doc)
  else
    let fuel := (4 * String.length doc + 4)%nat in
    match scan_once fuel (skip_ws doc) with
    | inl e => inl e
    | inr (v, r) =>
        match skip_ws r with
        | EmptyString => inr v
        | r' => inl (mkJErr "Extra data" r')
        end
    end.

(** Newlines in [s] and the index of the last one ([-1] if none), scanning
    from index [i]; indices count code points. *)
Fixpoint newline_stats (s : string) (i : Z) (cnt last : Z) : Z * Z :=
  match s with
  | EmptyString => (cnt, last)
  | String c r =>
      if code_is 10 c then newline_stats r (i + 1) (cnt + 1) i
      else newline_stats r (if is_cont c then i else i + 1) cnt last
  end.

(** [str(e)] of the exception [json.loads] raised.  For
    [JSONDecodeError(msg, doc, pos)]: ["%s: line %d column %d (char %d)"]
    with [lineno = doc.count('\n', 0, pos) + 1] and
    [colno = pos - doc.rfind('\n', 0, pos)]. *)
Definition decode_error_str (doc : string) (e : JErr) : string :=
  match e with
  | mkJErr msg rest =>
      let bpos := (String.length doc - String.length rest)%nat in
      let pos := Z.of_nat (py_len doc - py_len rest) in
      let '(cnt, last) := newline_stats (substring 0 bpos doc) 0 0 (-1) in
      msg ++ ": line " ++ py_str_int (cnt + 1) ++ " column "
        ++ py_str_int (pos - last) ++ " (char " ++ py_str_int pos ++ ")"
  | JIntLimit n =>
      "Exceeds the limit (4300 digits) for integer string conversion: value has "
        ++ py_str_int n ++ " digits; use sys.set_int_max_str_digits() to increase the limit"
  | JRecursion what => "maximum recursion depth exceeded" ++ what
  end.


Definition dq : string := char 34.

(** [str(e)] of the exception [json.loads(doc)] raises, empty if none. *)
Definition loads_str (doc : string) : string :=
  match json_loads doc with inl e => decode_error_str doc e | inr _ => "" end.

(* ------------------------------------------------------------------ *)
(** ** The pydantic schema (ai_planner.py, lines 7-24) *)

Module Schema.

Record Activity := mkActivity {
  name : string;
  time : string;
  description : string;
  cost_estimate : string;
  latitude : PyFloat;
  longitude : PyFloat }.

Record DailyPlan := mkDailyPlan {
  day : Z;
  theme : string;
  activities : list Activity }.

Record TripItinerary := mkTripItinerary {
  destination : string;
  total_estimated_cost : string;
  budget_tips : list string;
  itinerary : list DailyPlan }.

(** [model_dump_json()] at the level of the JSON document: fields in
    declaration order; a float field is dumped as a JSON number when finite
    and as [null] when it is inf, -inf or nan (pydantic v2's default
    [ser_json_inf_nan='null']). *)
Definition encode_float (f : PyFloat) : Json :=
  match f with
  | Fin _ _ => JFloat f
  | PosInf | NegInf | NaN => JNull
  end.

Definition encode_activity (a : Activity) : Json :=
  JObj [("name", JStr (name a)); ("time", JStr (time a));
        ("description", JStr (description a));
        ("cost_estimate", JStr (cost_estimate a));
        ("latitude", encode_float (latitude a));
        ("longitude", encode_float (longitude a))].

Definition encode_day (d : DailyPlan) : Json :=
  JObj [("day", JInt (day d)); ("theme", JStr (theme d));
        ("activities", JArr (map encode_activity (activities d)))].

Definition encode_trip (t : TripItinerary) : Json :=
  JObj [("destination", JStr (destination t));
        ("total_estimated_cost", JStr (total_estimated_cost t));
        ("budget_tips", JArr (map JStr (budget_tips t)));
        ("itinerary", JArr (map encode_day (itinerary t)))].

(** [model_validate] on a parsed JSON document, rejecting (not coercing)
    wrong primitive kinds: a [str] field takes a JSON string, an [int]
    field a JSON integer, a [float] field a JSON number (an integer is
    widened to a float), a [List[...]] field a JSON array whose every
    element validates; a model takes a JSON object holding every field
    (extra keys are ignored); a missing field fails. *)
Definition field (k : string) (j : Json) : option Json :=
  match j with
  | JObj kv => dict_get k kv
  | _ => None
  end.

(** Field validation takes a value of the field's own JSON type (and an
    int for a float field).  pydantic's lax mode also coerces a few other
    inputs (a numeric str to a number, an integral float to an int); that
    coercion is not modelled, so this decoder accepts a subset of what
    pydantic accepts.  [null] is rejected by both for a str, int or float
    field. *)
Definition as_str (j : Json) : option string :=
  match j with JStr s => Some s | _ => None end.

Definition as_int (j : Json) : option Z :=
  match j with JInt z => Some z | _ => None end.

Definition as_float (j : Json) : option PyFloat :=
  match j with
  | JFloat f => Some f
  | JInt z => Some (Fin z 0)
  | _ => None
  end.

Fixpoint map_opt {A B} (f : A -> option B) (l : list A) : option (list B) :=
  match l with
  | [] => Some []
  | x :: l' =>
      match f x, map_opt f l' with
      | Some y, Some ys => Some (y :: ys)
      | _, _ => None
      end
  end.

Definition as_list {B} (f : Json -> option B) (j : Json) : option (list B) :=
  match j with JArr l => map_opt f l | _ => None end.

Definition obind {A B} (m : option A) (k : A -> option B) : option B :=
  match m with Some a => k a | None => None end.

Notation "x <-? m ;; k" := (obind m (fun x => k))
  (at level 61, m at next level, right associativity).

Definition decode_activity (j : Json) : option Activity :=
  n <-? obind (field "name" j) as_str ;;
  t <-? obind (field "time" j) as_str ;;
  d <-? obind (field "description" j) as_str ;;
  c <-? obind (field "cost_estimate" j) as_str ;;
  la <-? obind (field "latitude" j) as_float ;;
  lo <-? obind (field "longitude" j) as_float ;;
  Some (mkActivity n t d c la lo).

Definition decode_day (j : Json) : option DailyPlan :=
  n <-? obind (field "day" j) as_int ;;
  th <-? obind (field "theme" j) as_str ;;
  acts <-? obind (field "activities" j) (as_list decode_activity) ;;
  Some (mkDailyPlan n th acts).

Definition decode_trip (j : Json) : option TripItinerary :=
  d <-? obind (field "destination" j) as_str ;;
  c <-? obind (field "total_estimated_cost" j) as_str ;;
  tips <-? obind (field "budget_tips" j) (as_list as_str) ;;
  days <-? obind (field "itinerary" j) (as_list decode_day) ;;
  Some (mkTripItinerary d c tips days).

(** A document satisfies the schema when it validates. *)
Definition conforms (j : Json) : bool :=
  match decode_trip j with Some _ => true | None => false end.

End Schema.

(* ------------------------------------------------------------------ *)
(** ** [generate_itinerary] (ai_planner.py, lines 26-71) *)

Module Planner.

(** [sep.join(l)] *)
Fixpoint join (sep : string) (l : list string) : string :=
  match l with
  | [] => ""
  | [x] => x
  | x :: l' => x ++ sep ++ join sep l'
  end.

(** Line 36. *)
Definition interests_str (interests : list string) : string :=
  match interests with
  | [] => "General sightseeing"
  | _ => join ", " interests
  end.

(** Line 37. *)
Definition notes_str (notes : string) : string :=
  match notes with
  | EmptyString => ""
  | _ => nl ++ "Additional Notes: " ++ notes
  end.

(** Lines 39-49: the f-string, its lines indented by four spaces; line 47
    ends with a space. *)
Definition prompt (days : Z) (destination budget : string)
    (interests : list string) (notes : string) : string :=
  nl ++ "    You are an expert travel planner specializing in budget travel for college students."
  ++ nl ++ "    Create a detailed " ++ py_str_int days ++ "-day itinerary for "
  ++ destination ++ "."
  ++ nl ++ "    "
  ++ nl ++ "    Constraints & Preferences:"
  ++ nl ++ "    - Budget Level: " ++ budget
  ++ ". Prioritize free activities, student discounts, street food, and cheap transport."
  ++ nl ++ "    - Interests: " ++ interests_str interests ++ "." ++ notes_str notes
  ++ nl ++ "    "
  ++ nl ++ "    For every activity, you must provide realistic latitude and longitude coordinates. "
  ++ nl ++ "    Ensure locations for a single day are geographically close to minimize transit time and costs."
  ++ nl ++ "    ".

(** The request [model.generate_content] sends, with the key set by
    [genai.configure] (lines 31, 34, 54-61). *)
Record Request := mkRequest {
  req_api_key : string;
  req_model : string;
  req_prompt : string;
  req_mime_type : string;
  req_response_schema : string;    (* the pydantic class, by name *)
  req_temperature : PyFloat }.

(** The exceptions the [try] block can raise: the library's
    [InvalidArgument], or any other [Exception] (its [str(e)]); a
    [JSONDecodeError] of [json.loads] is one of the latter. *)
Inductive Exc :=
| InvalidArgument (msg : string)
| OtherExc (str_e : string).

(** What the backend does with a request: reply with a response whose
    [.text] is [text], or raise. *)
Inductive Reply :=
| Replied (text : string)
| Raised (e : Exc).

(** The dict [generate_itinerary] returns:
    [{"status": "success", "data": ...}] or
    [{"status": "error", "message": ...}]. *)
Inductive GenResult :=
| GenSuccess (data : Json)
| GenError (message : string).

Definition status (r : GenResult) : string :=
  match r with GenSuccess _ => "success" | GenError _ => "error" end.

Definition invalid_key_message : string :=
  "Invalid API Key provided. Please check your Gemini API key.".

Definition request_of (api_key : string) (days : Z)
    (destination budget : string) (interests : list string) (notes : string)
  : Request :=
  mkRequest api_key "gemini-2.5-flash" (prompt days destination budget interests notes)
    "application/json" "TripItinerary" (Fin 7 (-1)).

(** [generate_itinerary] with the backend [backend]; also returns the
    requests sent to it, in order. *)
Definition generate_itinerary (backend : Request -> Reply) (api_key destination : string)
    (days : Z) (budget : string) (interests : list string) (notes : string)
  : GenResult * list Request :=
  let req := request_of api_key days destination budget interests notes in
  let result :=
    match backend req with
    | Raised (InvalidArgument _) => GenError invalid_key_message
    | Raised (OtherExc m) => GenError m
    | Replied text =>
        match json_loads text with
        | inl e => GenError (decode_error_str text e)
        | inr result_dict => GenSuccess result_dict
        end
    end in
  (result, [req]).

End Planner.

(* ------------------------------------------------------------------ *)
(** ** The session slot and the generate button (app.py, lines 56-116) *)

Module App.
Import Planner.

(** [st.session_state] after the initialisation of lines 86-89: both keys
    present, [None] modelled as [None]. *)
Record Session := mkSession {
  itinerary_data : option Json;
  error_message : option string }.

Definition initial_session : Session := mkSession None None.

(** The sidebar values of one script run. [api_key] is
    [os.getenv("GEMINI_API_KEY")], [None] when unset. *)
Record Inputs := mkInputs {
  api_key : option string;
  destination : string;
  duration_days : Z;
  budget_level : string;
  interests : list string;
  additional_notes : string;
  generate_btn : bool }.

Inductive UiMsg :=
| UiError (msg : string)
| UiWarning (msg : string).

Definition missing_key_message : string :=
  "Please provide a Gemini API Key in the sidebar or `.env` file to proceed.".

(** [not api_key or api_key == "your_api_key_here"] *)
Definition key_missing (k : option string) : bool :=
  match k with
  | None => true
  | Some EmptyString => true
  | Some s => String.eqb s "your_api_key_here"
  end.

(** Lines 93-94: [itinerary_data] and [error_message] set to [None]. *)
Definition reset_slot (s : Session) : Session :=
  {| itinerary_data := None; error_message := None |}.

(** Lines 91-116: the new session, the messages shown, and the requests
    sent to the backend during the run. *)
Definition run (backend : Request -> Reply) (inp : Inputs) (s : Session)
  : Session * list UiMsg * list Request :=
  if generate_btn inp then
    let s := reset_slot s in
    match api_key inp with
    | Some k as key =>
        if key_missing key then (s, [UiError missing_key_message], [])
        else match destination inp with
        | EmptyString => (s, [UiWarning "Please enter a destination."], [])
        | dest =>
            let '(result, calls) :=
              generate_itinerary backend k dest (duration_days inp)
                (budget_level inp) (interests inp) (additional_notes inp) in
            match result with
            | GenSuccess d => (mkSession (Some d) None, [], calls)
            | GenError m => (mkSession None (Some m), [], calls)
            end
        end
    | None => (s, [UiError missing_key_message], [])
    end
  else (s, [], []).

Definition session_of (o : Session * list UiMsg * list Request) : Session :=
  fst (fst o).
Definition messages_of (o : Session * list UiMsg * list Request) : list UiMsg :=
  snd (fst o).
Definition calls_of (o : Session * list UiMsg * list Request) : list Request :=
  snd o.

End App.

(* ------------------------------------------------------------------ *)
(** ** The map (app.py, lines 140-167), on a schema-conformant itinerary:
    [d['k']] on the parsed dict is the field [k] of the record. *)

Module Render.
Import Schema.

Definition coord : Type := (PyFloat * PyFloat)%type.

(** Lines 141-144: [all_coords], in itinerary order. *)
Definition all_coords (it : TripItinerary) : list coord :=
  flat_map (fun d => map (fun a => (latitude a, longitude a)) (activities d))
    (itinerary it).

(** Line 150. *)
Definition colors : list string :=
  ["red"; "blue"; "green"; "purple"; "orange"; "darkred"; "lightred";
   "beige"; "darkblue"; "darkgreen"; "cadetblue"; "darkpurple"; "white";
   "pink"; "lightblue"; "lightgreen"; "gray"; "black"; "lightgray"].

(** [palette[(day - 1) % len(palette)]]; Python's [%] with a positive
    divisor is [Z.modulo]. *)
Definition pick_color (palette : list string) (d : Z) : string :=
  nth (Z.to_nat ((d - 1) mod Z.of_nat (List.length palette))) palette "".

(** Line 154. *)
Definition day_color (d : Z) : string := pick_color colors d.

Record Marker := mkMarker {
  marker_location : coord;
  popup : string;
  tooltip : string;
  icon_color : string }.

(** Lines 156-161. *)
Definition marker (d : DailyPlan) (day_col : string) (a : Activity) : Marker :=
  mkMarker (latitude a, longitude a)
    ("<b>" ++ name a ++ "</b><br>Day " ++ py_str_int (day d) ++ ": " ++ time a
       ++ "<br>Cost: " ++ cost_estimate a)
    ("Day " ++ py_str_int (day d) ++ ": " ++ name a)
    day_col.

Record MapView := mkMapView {
  location : coord;            (* folium.Map(location=all_coords[0]) *)
  markers : list Marker;       (* in the order they are added *)
  fit_bounds : list coord }.   (* m.fit_bounds(all_coords) *)

Inductive MapResult :=
| MapEmpty                     (* "No coordinates returned ..." *)
| MapShown (v : MapView)
| MapRaised (msg : string).    (* ValueError raised by folium *)

Definition is_nan (f : PyFloat) : bool :=
  match f with NaN => true | _ => false end.

(** folium's validate_location on a pair of floats: [math.isnan] of either
    coordinate raises ValueError; an infinity passes. *)
Definition location_ok (c : coord) : bool :=
  negb (is_nan (fst c) || is_nan (snd c)).

Definition nan_message : string := "Location values cannot contain NaNs.".

(** Lines 146-167: folium.Map validates [all_coords[0]] and each
    folium.Marker its location; fit_bounds validates nothing. *)
Definition map_view (it : TripItinerary) : MapResult :=
  match all_coords it with
  | [] => MapEmpty
  | c0 :: _ =>
      let ms := flat_map (fun d => let day_col := day_color (day d) in
                                   map (marker d day_col) (activities d))
                  (itinerary it) in
      if location_ok c0 && forallb (fun m => location_ok (marker_location m)) ms
      then MapShown (mkMapView c0 ms (all_coords it))
      else MapRaised nan_message
  end.

End Render.

(* ------------------------------------------------------------------ *)
(** ** The page (app.py, lines 118-183), on the parsed JSON held in the
    session: [d['k']], [for x in ...] and truthiness as Python has them.
    An uncaught exception stops the script; the page then shows the
    elements emitted so far and the exception. *)

Module Page.
Import App.

Inductive PyErr :=
| KeyError (key : string)
| TypeError (msg : string).

(** A piece of an f-string: literal text, or a value formatted by [str()]. *)
Inductive Piece :=
| Lit (s : string)
| Val (j : Json).

Record MarkerJ := mkMarkerJ {
  mloc : Json * Json;
  mpopup : list Piece;
  mtooltip : list Piece;
  mcolor : string }.

(** The elements written to the page.  Elements with fixed text are
    constructors named after it. *)
Inductive Elem :=
| MainTitle                       (* line 119, "AI Travel Planner for Students" *)
| SubTitle                        (* line 120 *)
| ErrorBox (msg : string)         (* st.error *)
| SuccessBox (p : list Piece)     (* st.success *)
| Markdown (p : list Piece)       (* st.markdown *)
| BudgetTips (body : list Elem)   (* line 131, the "Budget Tips for Students" expander *)
| Divider                         (* st.divider() *)
| HighlightsHeader                (* line 138, "Your Trip Highlights" *)
| FoliumMap (location : Json * Json) (markers : list MarkerJ)
            (bounds : list (Json * Json))   (* lines 148-165 *)
| NoCoordsInfo                    (* line 167 *)
| ItineraryHeader                 (* line 172, "Your Itinerary" *)
| Container (body : list Elem)    (* line 174 *)
| WelcomeInfo                     (* line 183 *)
| FeatureColumns.                 (* lines 185-194 *)

(** Python's [type(x).__name__]. *)
Definition type_name (j : Json) : string :=
  match j with
  | JNull => "NoneType" | JBool _ => "bool" | JInt _ => "int"
  | JFloat _ => "float" | JStr _ => "str" | JArr _ => "list" | JObj _ => "dict"
  end.

(** [x[k]] with a string key. *)
Definition getitem (j : Json) (k : string) : PyErr + Json :=
  match j with
  | JObj kv => match dict_get k kv with Some v => inr v | None => inl (KeyError k) end
  | JArr _ => inl (TypeError "list indices must be integers or slices, not str")
  | JStr _ => inl (TypeError "string indices must be integers, not 'str'")
  | _ => inl (TypeError ("'" ++ type_name j ++ "' object is not subscriptable"))
  end.

(** [iter(s)] of a str: one str per code point, a lead byte together with
    the continuation bytes after it. *)
Fixpoint chars (s : string) : list Json :=
  match s with
  | EmptyString => []
  | String c r =>
      match chars r with
      | JStr (String d t) :: l =>
          if is_cont d then JStr (String c (String d t)) :: l
          else JStr (String c EmptyString) :: JStr (String d t) :: l
      | l => JStr (String c EmptyString) :: l
      end
  end.

(** [for x in j]: a list yields its items, a dict its keys, a str its
    characters. *)
Definition iter (j : Json) : PyErr + list Json :=
  match j with
  | JArr l => inr l
  | JObj kv => inr (map (fun kv => JStr (fst kv)) kv)
  | JStr s => inr (chars s)
  | _ => inl (TypeError ("'" ++ type_name j ++ "' object is not iterable"))
  end.

(** [bool(x)]. *)
Definition truthy (j : Json) : bool :=
  match j with
  | JNull => false
  | JBool b => b
  | JInt z => negb (Z.eqb z 0)
  | JFloat (Fin m _) => negb (Z.eqb m 0)
  | JFloat _ => true
  | JStr s => negb (String.eqb s "")
  | JArr l => match l with [] => false | _ => true end
  | JObj kv => match kv with [] => false | _ => true end
  end.

Definition sbind {A B} (m : PyErr + A) (k : A -> PyErr + B) : PyErr + B :=
  match m with inl e => inl e | inr a => k a end.

Notation "x <-s m ;; k" := (sbind m (fun x => k))
  (at level 61, m at next level, right associativity).

(** [colors[(d - 1) % len(colors)]] on the value of [day['day']]: an int
    (a bool counts as one) picks a colour; a float makes a float index; any
    other value cannot take [- 1]. *)
Definition day_color_of (d : Json) : PyErr + string :=
  match d with
  | JInt z => inr (Render.day_color z)
  | JBool b => inr (Render.day_color (if b then 1 else 0))
  | JFloat _ => inl (TypeError "list indices must be integers or slices, not float")
  | _ => inl (TypeError ("unsupported operand type(s) for -: '" ++ type_name d
                          ++ "' and 'int'"))
  end.

Fixpoint smap {A B} (f : A -> PyErr + B) (l : list A) : PyErr + list B :=
  match l with
  | [] => inr []
  | x :: l' => y <-s f x ;; ys <-s smap f l' ;; inr (y :: ys)
  end.

(** Lines 141-144. *)
Definition all_coords_j (d : Json) : PyErr + list (Json * Json) :=
  days <-s (it <-s getitem d "itinerary" ;; iter it) ;;
  per_day <-s smap (fun day =>
      acts <-s (a <-s getitem day "activities" ;; iter a) ;;
      smap (fun act => lat <-s getitem act "latitude" ;;
                       lon <-s getitem act "longitude" ;; inr (lat, lon)) acts) days ;;
  inr (List.concat per_day).

Section Folium.

(** folium's own check of a [location] (raising for values it cannot take
    as coordinates), a library function kept as a parameter. *)
Variable folium_location_error : Json * Json -> option PyErr.

Definition folium_check (loc : Json * Json) : PyErr + unit :=
  match folium_location_error loc with Some e => inl e | None => inr tt end.

(** Lines 153-161: the markers, in the order they are added; arguments
    are evaluated left to right (location, popup, tooltip) before
    [folium.Marker] checks the location. *)
Definition markers_j (d : Json) : PyErr + list MarkerJ :=
  days <-s (it <-s getitem d "itinerary" ;; iter it) ;;
  per_day <-s smap (fun day =>
      dn <-s getitem day "day" ;;
      day_col <-s day_color_of dn ;;
      acts <-s (a <-s getitem day "activities" ;; iter a) ;;
      smap (fun act =>
          lat <-s getitem act "latitude" ;;
          lon <-s getitem act "longitude" ;;
          n <-s getitem act "name" ;;
          t <-s getitem act "time" ;;
          c <-s getitem act "cost_estimate" ;;
          _ <-s folium_check (lat, lon) ;;
          inr (mkMarkerJ (lat, lon)
                 [Lit "<b>"; Val n; Lit "</b><br>Day "; Val dn; Lit ": "; Val t;
                  Lit "<br>Cost: "; Val c]
                 [Lit "Day "; Val dn; Lit ": "; Val n]
                 day_col)) acts) days ;;
  inr (List.concat per_day).

(** The writer of page elements with Python exceptions. *)
Definition W (A : Type) := (list Elem * (PyErr + A))%type.

Definition wret {A} (a : A) : W A := ([], inr a).

Definition wbind {A B} (m : W A) (k : A -> W B) : W B :=
  match m with
  | (es, inl e) => (es, inl e)
  | (es, inr a) => let '(es', r) := k a in ((es ++ es')%list, r)
  end.

Notation "x <-w m ;; k" := (wbind m (fun x => k))
  (at level 61, m at next level, right associativity).

Definition emit (e : Elem) : W unit := ([e], inr tt).
Definition lift {A} (r : PyErr + A) : W A := ([], r).

(** A [with] block: the wrapper is on the page before its body runs. *)
Definition with_block {A} (wrap : list Elem -> Elem) (m : W A) : W A :=
  let '(es, r) := m in ([wrap es], r).

Fixpoint wfor {A} (l : list A) (f : A -> W unit) : W unit :=
  match l with
  | [] => wret tt
  | x :: l' => _ <-w f x ;; wfor l' f
  end.

(** Lines 146-167. *)
Definition map_block (d : Json) (coords : list (Json * Json)) : W unit :=
  match coords with
  | [] => emit NoCoordsInfo
  | c0 :: _ =>
      _ <-w lift (folium_check c0) ;;
      ms <-w lift (markers_j d) ;;
      emit (FoliumMap c0 ms coords)
  end.

(** Lines 126-179. *)
Definition body (d : Json) : W unit :=
  dest <-w lift (getitem d "destination") ;;
  _ <-w emit (SuccessBox [Lit "Trip to "; Val dest; Lit " planned successfully!"]) ;;
  cost <-w lift (getitem d "total_estimated_cost") ;;
  _ <-w emit (Markdown [Lit "**Estimated Total Cost:** "; Val cost]) ;;
  _ <-w with_block BudgetTips
          (tips <-w lift (t <-s getitem d "budget_tips" ;; iter t) ;;
           wfor tips (fun tip => emit (Markdown [Lit "- "; Val tip]))) ;;
  _ <-w emit Divider ;;
  _ <-w emit HighlightsHeader ;;
  coords <-w lift (all_coords_j d) ;;
  _ <-w map_block d coords ;;
  _ <-w emit Divider ;;
  _ <-w emit ItineraryHeader ;;
  days <-w lift (it <-s getitem d "itinerary" ;; iter it) ;;
  wfor days (fun day =>
    with_block Container
      (dn <-w lift (getitem day "day") ;;
       th <-w lift (getitem day "theme") ;;
       _ <-w emit (Markdown [Lit "### Day "; Val dn; Lit ": "; Val th]) ;;
       acts <-w lift (a <-s getitem day "activities" ;; iter a) ;;
       _ <-w wfor acts (fun act =>
               t <-w lift (getitem act "time") ;;
               n <-w lift (getitem act "name") ;;
               c <-w lift (getitem act "cost_estimate") ;;
               _ <-w emit (Markdown [Lit "**"; Val t; Lit "** - "; Val n; Lit " (";
                                     Val c; Lit ")"]) ;;
               desc <-w lift (getitem act "description") ;;
               emit (Markdown [Lit "*"; Val desc; Lit "*"])) ;;
       emit (Markdown [Lit "---"]))).

Definition empty_state : W unit := _ <-w emit WelcomeInfo ;; emit FeatureColumns.

(** Lines 119-183: the elements shown, and the exception that stopped the
    script, if any. *)
Definition page (s : Session) : list Elem * option PyErr :=
  let '(es, r) :=
    (_ <-w emit MainTitle ;;
     _ <-w emit SubTitle ;;
     match error_message s with
     | Some (String _ _ as m) => emit (ErrorBox ("Failed to generate itinerary: " ++ m))
     | _ =>
         match itinerary_data s with
         | Some d => if truthy d then body d else empty_state
         | None => empty_state
         end
     end) in
  (es, match r with inl e => Some e | inr _ => None end).

End Folium.

End Page.

(* ------------------------------------------------------------------ *)
(** ** Definitions the properties are stated with *)

Module Spec.
Import Schema Planner Render.

(** [x] occurs in [s]. *)
Definition contains (x s : string) : Prop :=
  exists pre post, s = pre ++ x ++ post.

(** The prompt up to the notes clause, and after it. *)
Definition prompt_head days destination budget interests : string :=
  nl ++ "    You are an expert travel planner specializing in budget travel for college students."
  ++ nl ++ "    Create a detailed " ++ py_str_int days ++ "-day itinerary for "
  ++ destination ++ "."
  ++ nl ++ "    "
  ++ nl ++ "    Constraints & Preferences:"
  ++ nl ++ "    - Budget Level: " ++ budget
  ++ ". Prioritize free activities, student discounts, street food, and cheap transport."
  ++ nl ++ "    - Interests: " ++ interests_str interests ++ ".".

Definition prompt_tail : string :=
  nl ++ "    "
  ++ nl ++ "    For every activity, you must provide realistic latitude and longitude coordinates. "
  ++ nl ++ "    Ensure locations for a single day are geographically close to minimize transit time and costs."
  ++ nl ++ "    ".

(** The first activity of the first day in the list, when there is one. *)
Definition first_day_first_coord (it : TripItinerary) : option coord :=
  match itinerary it with
  | d :: _ =>
      match activities d with
      | a :: _ => Some (latitude a, longitude a)
      | [] => None
      end
  | [] => None
  end.




(** Outcomes a caller could tell apart by looking only at the returned
    value, as the three-way classification of the spec names them. *)
Inductive SpecOutcome := OSuccess | OAuthError | OGenerationError.

(** A backend that replies [text] to every request. *)
Definition replying (text : string) : Request -> Reply := fun _ => Replied text.

(** A backend that raises [e] on every request. *)
Definition raising (e : Exc) : Request -> Reply := fun _ => Raised e.

(** A JSON document with only a [destination] key. *)
Definition destination_only : string :=
  "{" ++ dq ++ "destination" ++ dq ++ ": " ++ dq ++ "Paris" ++ dq ++ "}".

(** An activity at [(lat, lon)] (whole-number coordinates). *)
Definition stop (n : string) (lat lon : Z) : Schema.Activity :=
  Schema.mkActivity n "Morning 09:00 AM" "A walk" "Free" (Fin lat 0) (Fin lon 0).

(** A two-day trip whose first day has no activity. *)
Definition empty_first_day : Schema.TripItinerary :=
  Schema.mkTripItinerary "Paris" "100" ["Walk"]
    [Schema.mkDailyPlan 1 "Arrival" [];
     Schema.mkDailyPlan 2 "Museums" [stop "Louvre" 48 2]].

(** The slot holds an itinerary or an error message, not both. *)
Definition at_most_one (s : App.Session) : Prop :=
  App.itinerary_data s = None \/ App.error_message s = None.

(** Inputs of a run where the button was pressed. *)
Definition pressed (key : option string) (dest : string) : App.Inputs :=
  App.mkInputs key dest 3 "Budget" ["History"; "Food"] "" true.

(** A one-day trip with a single activity whose latitude is [nan]. *)
Definition nan_trip : Schema.TripItinerary :=
  Schema.mkTripItinerary "Paris" "100" ["Walk"]
    [Schema.mkDailyPlan 1 "Museums"
       [Schema.mkActivity "Louvre" "Morning 09:00 AM" "Art" "Free" NaN (Fin 2 0)]].






(** The page's welcome state, after the two titles. *)
Definition welcome_page : list Page.Elem * option Page.PyErr :=
  ([Page.MainTitle; Page.SubTitle; Page.WelcomeInfo; Page.FeatureColumns], None).

(** Key present and usable, destination given, button pressed. *)
Definition will_call (inp : App.Inputs) : Prop :=
  App.generate_btn inp = true /\ App.key_missing (App.api_key inp) = false /\
  App.destination inp <> "".

(** The key [run] passes on ([None] never reaches the call). *)
Definition key_of (inp : App.Inputs) : string :=
  match App.api_key inp with Some k => k | None => "" end.

(** The request and result of the one call a run makes. *)
Definition call_of (backend : Request -> Reply) (inp : App.Inputs) : GenResult * list Request :=
  generate_itinerary backend (key_of inp) (App.destination inp) (App.duration_days inp)
    (App.budget_level inp) (App.interests inp) (App.additional_notes inp).

(** A folium that accepts every location. *)
Definition folium_lenient : Json * Json -> option Page.PyErr := fun _ => None.




(** The page of a failed generation: the two titles and the error box. *)
Definition error_page (m : string) : list Page.Elem * option Page.PyErr :=
  ([Page.MainTitle; Page.SubTitle; Page.ErrorBox ("Failed to generate itinerary: " ++ m)],
   None).

(** An element other than the error box. *)
(** The messages of the error boxes in an element, at any depth (inside
    the budget-tips expander and the day containers too). *)
Fixpoint error_boxes (e : Page.Elem) : list string :=
  match e with
  | Page.ErrorBox m => [m]
  | Page.BudgetTips body | Page.Container body => flat_map error_boxes body
  | _ => []
  end.

(** A page computation that puts no error box on the page, at any depth. *)
Definition no_error_box {A} (w : Page.W A) : Prop :=
  flat_map error_boxes (fst w) = [].

Definition quoted (s : string) : string := dq ++ s ++ dq.

(** A one-day trip with one activity at (48.5, 2.5). *)
Definition louvre : Schema.Activity :=
  Schema.mkActivity "Louvre" "Morning" "Art" "Free" (Fin 485 (-1)) (Fin 25 (-1)).

Definition paris_trip : Schema.TripItinerary :=
  Schema.mkTripItinerary "Paris" "100" ["Walk"] [Schema.mkDailyPlan 1 "Museums" [louvre]].

(** A reply text whose JSON is [paris_trip]'s. *)
Definition paris_json : string :=
  "{" ++ quoted "destination" ++ ": " ++ quoted "Paris" ++ ", "
  ++ quoted "total_estimated_cost" ++ ": " ++ quoted "100" ++ ", "
  ++ quoted "budget_tips" ++ ": [" ++ quoted "Walk" ++ "], "
  ++ quoted "itinerary" ++ ": [{" ++ quoted "day" ++ ": 1, "
  ++ quoted "theme" ++ ": " ++ quoted "Museums" ++ ", "
  ++ quoted "activities" ++ ": [{" ++ quoted "name" ++ ": " ++ quoted "Louvre" ++ ", "
  ++ quoted "time" ++ ": " ++ quoted "Morning" ++ ", "
  ++ quoted "description" ++ ": " ++ quoted "Art" ++ ", "
  ++ quoted "cost_estimate" ++ ": " ++ quoted "Free" ++ ", "
  ++ quoted "latitude" ++ ": 48.5, " ++ quoted "longitude" ++ ": 2.5}]}]}".

(** *** "Valid JSON" in the spec's sense: RFC 8259

    A recognizer of the RFC's grammar, written from the RFC and not from
    the program: [JSON-text = ws value ws]; values are [false], [null],
    [true], objects, arrays, numbers and strings.  Each function returns
    the input left after what it recognized.  Bytes of 128 and above
    stand for the UTF-8 encoded characters of a str, all allowed
    unescaped in a string. *)

(** [*DIGIT] *)
Fixpoint rfc_digits (s : string) : string :=
  match s with
  | String c r => if is_digit c then rfc_digits r else s
  | EmptyString => s
  end.

(** [number = [ minus ] int [ frac ] [ exp ]]; [frac] and [exp] are taken
    when they are complete (what is left otherwise cannot continue a
    JSON text). *)
Definition rfc_number (s : string) : option string :=
  let s0 := match s with String c r => if code_is 45 c then r else s | EmptyString => s end in
  let int_part :=
    match s0 with
    | String c r =>
        if code_is 48 c then Some r
        else if is_digit c then Some (rfc_digits r)
        else None
    | EmptyString => None
    end in
  match int_part with
  | None => None
  | Some s1 =>
      let s2 :=
        match s1 with
        | String p (String d r) =>
            if code_is 46 p && is_digit d then rfc_digits r else s1
        | _ => s1
        end in
      let s3 :=
        match s2 with
        | String e r =>
            if code_is 101 e || code_is 69 e then
              let r' := match r with
                        | String sg r'' => if code_is 43 sg || code_is 45 sg then r'' else r
                        | EmptyString => r
                        end in
              match r' with
              | String d r'' => if is_digit d then rfc_digits r'' else s2
              | EmptyString => s2
              end
            else s2
        | EmptyString => s2
        end in
      Some s3
  end.

Definition is_hex (c : ascii) : bool :=
  match hex_val c with Some _ => true | None => false end.

(** [string], after the opening quotation mark: unescaped characters are
    those from U+0020 on other than the quotation mark and the reverse
    solidus; an escape is a reverse solidus followed by the quotation mark,
    a reverse solidus, a solidus, one of [b f n r t], or [u] and four hex
    digits. *)
Fixpoint rfc_string (s : string) : option string :=
  match s with
  | EmptyString => None
  | String c r =>
      if code_is 34 c then Some r
      else if code_is 92 c then
        match r with
        | String e r' =>
            if code_is 34 e || code_is 92 e || code_is 47 e || code_is 98 e
               || code_is 102 e || code_is 110 e || code_is 114 e || code_is 116 e
            then rfc_string r'
            else if code_is 117 e then
              match r' with
              | String h1 (String h2 (String h3 (String h4 r''))) =>
                  if is_hex h1 && is_hex h2 && is_hex h3 && is_hex h4
                  then rfc_string r'' else None
              | _ => None
              end
            else None
        | EmptyString => None
        end
      else if (nat_of_ascii c <? 32)%nat then None
      else rfc_string r
  end.

(** [value], [object] after its [{] and [ws], [array] elements.  [n]
    bounds the depth; [rfc8259_text] gives more than the text can use. *)
Fixpoint rfc_value (n : nat) (s : string) {struct n} : option string :=
  match n with
  | O => None
  | S n =>
      match s with
      | EmptyString => None
      | String c r =>
          if code_is 123 c then
            match skip_ws r with
            | String d r' => if code_is 125 d then Some r' else rfc_members n (skip_ws r)
            | EmptyString => None
            end
          else if code_is 91 c then
            match skip_ws r with
            | String d r' => if code_is 93 d then Some r' else rfc_elements n (skip_ws r)
            | EmptyString => None
            end
          else if code_is 34 c then rfc_string r
          else if starts_with "false" s then Some (drop 5 s)
          else if starts_with "null" s then Some (drop 4 s)
          else if starts_with "true" s then Some (drop 4 s)
          else rfc_number s
      end
  end
with rfc_members (n : nat) (s : string) {struct n} : option string :=
  match n with
  | O => None
  | S n =>
      match s with
      | String q r =>
          if code_is 34 q then
            match rfc_string r with
            | None => None
            | Some r1 =>
                match skip_ws r1 with
                | String d r2 =>
                    if code_is 58 d then
                      match rfc_value n (skip_ws r2) with
                      | None => None
                      | Some r3 =>
                          match skip_ws r3 with
                          | String e r4 =>
                              if code_is 44 e then rfc_members n (skip_ws r4)
                              else if code_is 125 e then Some r4
                              else None
                          | EmptyString => None
                          end
                      end
                    else None
                | EmptyString => None
                end
            end
          else None
      | EmptyString => None
      end
  end
with rfc_elements (n : nat) (s : string) {struct n} : option string :=
  match n with
  | O => None
  | S n =>
      match rfc_value n s with
      | None => None
      | Some r =>
          match skip_ws r with
          | String e r' =>
              if code_is 44 e then rfc_elements n (skip_ws r')
              else if code_is 93 e then Some r'
              else None
          | EmptyString => None
          end
      end
  end.

(** [JSON-text = ws value ws]. *)
Definition rfc8259_text (s : string) : bool :=
  match rfc_value (4 * String.length s + 4)%nat (skip_ws s) with
  | Some r => match skip_ws r with EmptyString => true | _ => false end
  | None => false
  end.

End Spec.
Import Spec.

(* ================================================================== *)
(** * Properties *)

(** ** [json.loads] on a sample *)

Example json_loads_not_json :
  match json_loads "not json" with
  | inl e => decode_error_str "not json" e
  | inr _ => ""
  end = "Expecting value: line 1 column 1 (char 0)".
Proof. reflexivity. Qed.

(** The C scanner's behaviour on escapes, positions counted in code
    points, the BOM, and floats beyond the double range. *)
Example json_loads_samples :
  loads_str (dq ++ "\x" ++ dq) = "Invalid \escape: line 1 column 2 (char 1)" /\
  loads_str (dq ++ utf8 233 ++ "\x" ++ dq) = "Invalid \escape: line 1 column 3 (char 2)" /\
  loads_str (dq ++ "\u12" ++ dq) = "Invalid \uXXXX escape: line 1 column 3 (char 2)" /\
  loads_str (dq ++ "\ud83d\u12" ++ dq ++ "  ")
    = "Invalid \uXXXX escape: line 1 column 9 (char 8)" /\
  loads_str (dq ++ "ab" ++ utf8 233 ++ char 1 ++ dq)
    = "Invalid control character at: line 1 column 5 (char 4)" /\
  loads_str (utf8 65279 ++ "1")
    = "Unexpected UTF-8 BOM (decode using utf-8-sig): line 1 column 1 (char 0)" /\
  loads_str "[1,]" = "Expecting value: line 1 column 4 (char 3)" /\
  json_loads (dq ++ "\ud83d\ude00" ++ dq) = inr (JStr (utf8 128512)) /\
  json_loads (dq ++ "\ud83d" ++ dq) = inr (JStr (utf8 55357)) /\
  json_loads "1e400" = inr (JFloat PosInf) /\
  json_loads "-1e400" = inr (JFloat NegInf) /\
  json_loads "1e-400" = inr (JFloat (Fin 0 (-400))) /\
  json_loads "NaN" = inr (JFloat NaN).
Proof. repeat split; vm_compute; reflexivity. Qed.

(** The RFC grammar on a few texts: the sample document is valid JSON;
    [NaN], [Infinity], a bare word and a trailing comma are not. *)
Example rfc8259_samples :
  Spec.rfc8259_text Spec.paris_json = true /\
  Spec.rfc8259_text (" [1, -0.5e+3, " ++ dq ++ "a\u00e9" ++ dq ++ ", true, {}] ") = true /\
  Spec.rfc8259_text "NaN" = false /\
  Spec.rfc8259_text "Infinity" = false /\
  Spec.rfc8259_text "not json" = false /\
  Spec.rfc8259_text "[1,]" = false.
Proof. repeat split; vm_compute; reflexivity. Qed.

(** ** Strings *)

Lemma str_app_assoc (a b c : string) : (a ++ b) ++ c = a ++ b ++ c.
Proof. induction a as [|x a IH]; simpl; [reflexivity | now rewrite IH]. Qed.

(** ** The prompt *)

Module PromptFacts.
Import Planner.

Lemma prompt_contains_day_and_destination days destination budget interests notes :
  contains ("    Create a detailed " ++ py_str_int days ++ "-day itinerary for "
            ++ destination ++ ".")
    (prompt days destination budget interests notes).
Proof.
  exists (nl ++ "    You are an expert travel planner specializing in budget travel for college students." ++ nl).
  eexists. unfold prompt. rewrite !str_app_assoc. reflexivity.
Qed.

Lemma prompt_contains_budget days destination budget interests notes :
  contains ("    - Budget Level: " ++ budget
            ++ ". Prioritize free activities, student discounts, street food, and cheap transport.")
    (prompt days destination budget interests notes).
Proof.
  exists (nl ++ "    You are an expert travel planner specializing in budget travel for college students."
          ++ nl ++ "    Create a detailed " ++ py_str_int days ++ "-day itinerary for "
          ++ destination ++ "." ++ nl ++ "    " ++ nl ++ "    Constraints & Preferences:" ++ nl).
  eexists. unfold prompt. rewrite !str_app_assoc. reflexivity.
Qed.

Lemma prompt_split days destination budget interests notes :
  prompt days destination budget interests notes
  = prompt_head days destination budget interests ++ notes_str notes ++ prompt_tail.
Proof. unfold prompt, prompt_head, prompt_tail. rewrite !str_app_assoc. reflexivity. Qed.

Lemma prompt_contains_interests days destination budget interests notes :
  contains ("    - Interests: " ++ interests_str interests ++ ".")
    (prompt days destination budget interests notes).
Proof.
  rewrite prompt_split.
  exists (nl ++ "    You are an expert travel planner specializing in budget travel for college students."
          ++ nl ++ "    Create a detailed " ++ py_str_int days ++ "-day itinerary for "
          ++ destination ++ "." ++ nl ++ "    " ++ nl ++ "    Constraints & Preferences:"
          ++ nl ++ "    - Budget Level: " ++ budget
          ++ ". Prioritize free activities, student discounts, street food, and cheap transport."
          ++ nl).
  eexists. unfold prompt_head. rewrite !str_app_assoc. reflexivity.
Qed.

End PromptFacts.

Lemma contains_trans (x y s : string) :
  contains x y -> contains y s -> contains x s.
Proof.
  intros [p1 [q1 ->]] [p2 [q2 ->]].
  exists (p2 ++ p1), (q1 ++ q2). rewrite !str_app_assoc. reflexivity.
Qed.

(** ** The map *)

Module MapFacts.
Import Schema Render.

Lemma all_coords_skip_empty (pre post : list DailyPlan) :
  Forall (fun d => activities d = []) pre ->
  flat_map (fun d => map (fun a => (latitude a, longitude a)) (activities d))
    (pre ++ post)%list
  = flat_map (fun d => map (fun a => (latitude a, longitude a)) (activities d)) post.
Proof.
  induction 1 as [|d pre Hd _ IH]; simpl; [reflexivity|].
  rewrite Hd. exact IH.
Qed.

Lemma map_view_empty_iff (it : TripItinerary) :
  all_coords it = [] <-> map_view it = MapEmpty.
Proof.
  unfold map_view. split.
  - intros ->. reflexivity.
  - destruct (all_coords it); [reflexivity|].
    cbv zeta. destruct (_ && _); discriminate.
Qed.

Lemma markers_locations (days : list DailyPlan) :
  map marker_location
    (flat_map (fun d => map (marker d (day_color (day d))) (activities d)) days)
  = flat_map (fun d => map (fun a => (latitude a, longitude a)) (activities d)) days.
Proof.
  induction days as [|d days IH]; simpl; [reflexivity|].
  rewrite map_app, IH, map_map. reflexivity.
Qed.

Lemma forallb_map_comp {A B} (f : B -> bool) (g : A -> B) (l : list A) :
  forallb f (map g l) = forallb (fun x => f (g x)) l.
Proof. induction l as [|x l IH]; simpl; [reflexivity | now rewrite IH]. Qed.

(** The locations folium validates are all the collected coordinates. *)
Lemma map_view_checks (it : TripItinerary) :
  forallb (fun m => location_ok (marker_location m))
    (flat_map (fun d => let day_col := day_color (day d) in
                        map (marker d day_col) (activities d)) (itinerary it))
  = forallb location_ok (all_coords it).
Proof.
  rewrite <- (forallb_map_comp location_ok marker_location).
  unfold all_coords. rewrite <- markers_locations. reflexivity.
Qed.

Lemma map_view_location (it : TripItinerary) c rest :
  all_coords it = c :: rest ->
  forallb location_ok (all_coords it) = true ->
  exists v, map_view it = MapShown v /\ location v = c.
Proof.
  intros H Hok. unfold map_view. rewrite map_view_checks, Hok, H.
  rewrite H in Hok. simpl in Hok. apply andb_prop in Hok as [-> _].
  eexists. split; reflexivity.
Qed.

Lemma map_view_nan (it : TripItinerary) :
  all_coords it <> [] ->
  forallb location_ok (all_coords it) = false ->
  map_view it = MapRaised nan_message.
Proof.
  intros Hne Hbad. unfold map_view. rewrite map_view_checks, Hbad.
  destruct (all_coords it); [congruence|].
  rewrite andb_false_r. reflexivity.
Qed.

End MapFacts.

(** ** Dump and validate *)

Module SchemaFacts.
Import Schema.











End SchemaFacts.


(** ** The page *)

Module PageFacts.
Import Schema Page.









(** ** The page on the session a run leaves *)

Lemma page_body chk d :
  truthy d = true ->
  page chk (App.mkSession (Some d) None)
  = (MainTitle :: SubTitle :: fst (body chk d),
     match snd (body chk d) with inl e => Some e | inr _ => None end).
Proof.
  intros H. unfold page. cbn [App.error_message App.itinerary_data]. rewrite H.
  unfold wbind, emit. destruct (body chk d) as [es r]. reflexivity.
Qed.

Lemma page_falsy chk d :
  truthy d = false -> page chk (App.mkSession (Some d) None) = welcome_page.
Proof. intros H. unfold page. cbn [App.error_message App.itinerary_data]. rewrite H. reflexivity. Qed.


Lemma run_will_call backend inp s :
  will_call inp ->
  App.run backend inp s
  = (match fst (call_of backend inp) with
     | Planner.GenSuccess d => App.mkSession (Some d) None
     | Planner.GenError m => App.mkSession None (Some m)
     end, [], snd (call_of backend inp)).
Proof.
  intros [Hb [Hk Hd]]. unfold App.run, call_of, key_of. rewrite Hb.
  destruct (App.api_key inp) as [k|]; [|discriminate]. rewrite Hk.
  destruct (App.destination inp) as [|c r]; [congruence|].
  destruct (Planner.generate_itinerary _ _ _ _ _ _ _) as [[d|m] calls]; reflexivity.
Qed.

Lemma run_success_session backend inp s d :
  will_call inp -> fst (call_of backend inp) = Planner.GenSuccess d ->
  App.session_of (App.run backend inp s) = App.mkSession (Some d) None.
Proof. intros Hw Hr. rewrite (run_will_call backend inp s Hw), Hr. reflexivity. Qed.

Lemma run_error_session backend inp s m :
  will_call inp -> fst (call_of backend inp) = Planner.GenError m ->
  App.session_of (App.run backend inp s) = App.mkSession None (Some m).
Proof. intros Hw Hr. rewrite (run_will_call backend inp s Hw), Hr. reflexivity. Qed.

Lemma call_replied backend inp text :
  backend (Planner.request_of (key_of inp) (App.duration_days inp) (App.destination inp)
             (App.budget_level inp) (App.interests inp) (App.additional_notes inp))
  = Planner.Replied text ->
  fst (call_of backend inp)
  = match json_loads text with
    | inl e => Planner.GenError (decode_error_str text e)
    | inr j => Planner.GenSuccess j
    end.
Proof. intros H. unfold call_of, Planner.generate_itinerary. cbv zeta. rewrite H. reflexivity. Qed.

Lemma call_raised backend inp e :
  backend (Planner.request_of (key_of inp) (App.duration_days inp) (App.destination inp)
             (App.budget_level inp) (App.interests inp) (App.additional_notes inp))
  = Planner.Raised e ->
  fst (call_of backend inp)
  = match e with
    | Planner.InvalidArgument _ => Planner.GenError Planner.invalid_key_message
    | Planner.OtherExc m => Planner.GenError m
    end.
Proof. intros H. unfold call_of, Planner.generate_itinerary. cbv zeta. rewrite H. reflexivity. Qed.

Lemma decode_error_str_nonempty text e : exists c r, decode_error_str text e = String c r.
Proof.
  unfold decode_error_str. destruct e as [msg rest|n|what]; simpl; eauto.
  destruct (newline_stats _ _ _ _) as [cnt last].
  destruct msg as [|c r]; simpl; eauto.
Qed.

(** ** Where the error box can come from *)

Lemma nb_wbind {A B} (m : W A) (k : A -> W B) :
  no_error_box m -> (forall a, no_error_box (k a)) -> no_error_box (wbind m k).
Proof.
  unfold no_error_box. intros Hm Hk. destruct m as [es [e|a]]; simpl in *; [exact Hm|].
  specialize (Hk a). destruct (k a) as [es' r]. simpl in *.
  rewrite flat_map_app, Hm, Hk. reflexivity.
Qed.

Lemma nb_emit e : error_boxes e = [] -> no_error_box (emit e).
Proof. intros H. unfold no_error_box. simpl. rewrite H. reflexivity. Qed.

Lemma nb_lift {A} (r : PyErr + A) : no_error_box (lift r).
Proof. reflexivity. Qed.

Lemma nb_with_block {A} wrap (m : W A) :
  (forall es, flat_map error_boxes es = [] -> error_boxes (wrap es) = []) ->
  no_error_box m -> no_error_box (with_block wrap m).
Proof.
  intros H Hm. unfold no_error_box, with_block in *. destruct m as [es r]. simpl in *.
  rewrite (H es Hm). reflexivity.
Qed.

Lemma nb_wfor {A} (l : list A) f :
  (forall x, no_error_box (f x)) -> no_error_box (wfor l f).
Proof.
  intros H. induction l as [|x l IH]; simpl; [constructor|].
  apply nb_wbind; [apply H | intros; exact IH].
Qed.

Ltac nb_step :=
  first [ apply nb_lift
        | apply nb_emit; reflexivity
        | apply nb_with_block; [intros ? Hes; exact Hes|]
        | apply nb_wbind; intros
        | apply nb_wfor; intros ].

Lemma nb_map_block chk d coords : no_error_box (map_block chk d coords).
Proof. destruct coords as [|c0 cs]; unfold map_block; repeat nb_step. Qed.

Lemma nb_body chk d : no_error_box (body chk d).
Proof. unfold body. repeat (nb_step || apply nb_map_block). Qed.

Lemma nb_page chk s :
  (forall c m, App.error_message s <> Some (String c m)) ->
  flat_map error_boxes (fst (page chk s)) = [].
Proof.
  destruct s as [d err]. intros Herr.
  assert (Hrest : no_error_box
            match err with
            | Some (String _ _ as m) => emit (ErrorBox ("Failed to generate itinerary: " ++ m))
            | _ => match d with
                   | Some d => if truthy d then body chk d else empty_state
                   | None => empty_state
                   end
            end).
  { destruct err as [[|c m]|]; [| exfalso; exact (Herr c m eq_refl) |];
      (destruct d as [d|]; [destruct (truthy d); [apply nb_body|] |]);
      unfold empty_state; repeat nb_step. }
  unfold page; cbn [App.error_message App.itinerary_data].
  assert (Hw : no_error_box (wbind (emit MainTitle) (fun _ => wbind (emit SubTitle) (fun _ =>
            match err with
            | Some (String _ _ as m) => emit (ErrorBox ("Failed to generate itinerary: " ++ m))
            | _ => match d with
                   | Some d => if truthy d then body chk d else empty_state
                   | None => empty_state
                   end
            end)))).
  { apply nb_wbind; [apply nb_emit; reflexivity|]. intros _.
    apply nb_wbind; [apply nb_emit; reflexivity|]. intros _. exact Hrest. }
  destruct (wbind _ _) as [es r]. exact Hw.
Qed.

(** ** The typed map *)

Lemma day_color_in d : In (Render.day_color d) Render.colors.
Proof.
  unfold Render.day_color, Render.pick_color. apply nth_In.
  change (List.length Render.colors) with 19%nat.
  pose proof (Z.mod_pos_bound (d - 1) (Z.of_nat 19)) as Hb.
  assert (Z.to_nat ((d - 1) mod Z.of_nat 19) < Z.to_nat (Z.of_nat 19))%nat by (apply Z2Nat.inj_lt; lia).
  rewrite Nat2Z.id in H. exact H.
Qed.

End PageFacts.

(* ================================================================== *)
(** * The claims *)

Module Claims.
Import Planner.

(** (C1, counterexample) The claim that every parseable but non-conformant
    reply gives an error result fails: the reply [{"destination": "Paris"}]
    (no [budget_tips], no [itinerary]) parses, does not validate, and
    [generate_itinerary] returns success carrying it. *)
Lemma C1_counterexample :
  ~ (forall backend api_key destination days budget interests notes text j,
       backend (request_of api_key days destination budget interests notes) = Replied text ->
       json_loads text = inr j ->
       Schema.conforms j = false ->
       exists m, fst (generate_itinerary backend api_key destination days budget
                        interests notes) = GenError m).
Proof.
  intros H.
  destruct (H (replying destination_only) "key" "Paris" 2 "Budget" [] ""
              destination_only (JObj [("destination", JStr "Paris")])
              eq_refl eq_refl eq_refl) as [m Hm].
  vm_compute in Hm. discriminate.
Qed.

(** C1 (amended): [generate_itinerary] does no schema validation.
    Whenever the backend's reply text parses with [json.loads], the result
    is status "success" carrying the parsed value, whether or not it
    satisfies the schema, and exactly one request was sent. *)
Theorem C1_success_without_validation
    backend api_key destination days budget interests notes text j :
  backend (request_of api_key days destination budget interests notes) = Replied text ->
  json_loads text = inr j ->
  generate_itinerary backend api_key destination days budget interests notes
  = (GenSuccess j, [request_of api_key days destination budget interests notes]).
Proof.
  intros Hb Hj. unfold generate_itinerary. rewrite Hb, Hj. reflexivity.
Qed.

Lemma C1_witness :
  Schema.conforms (JObj [("destination", JStr "Paris")]) = false /\
  generate_itinerary (replying destination_only) "key" "Paris" 2 "Budget" [] ""
  = (GenSuccess (JObj [("destination", JStr "Paris")]),
     [request_of "key" 2 "Paris" "Budget" [] ""]).
Proof.
  split; [reflexivity|].
  apply (C1_success_without_validation (replying destination_only) "key" "Paris" 2
           "Budget" [] "" destination_only); vm_compute; reflexivity.
Defined.

(** (C2, counterexample) No function of the returned value separates the
    auth rejection from the other failures: an [InvalidArgument] and an
    other exception whose text is the auth message give the same result,
    so no classification into Success / AuthError / GenerationError can
    answer AuthError exactly for the auth rejection. *)
Lemma C2_counterexample :
  ~ exists classify : GenResult -> SpecOutcome,
      forall backend api_key destination days budget interests notes,
        classify (fst (generate_itinerary backend api_key destination days budget
                         interests notes)) = OAuthError
        <-> exists m, backend (request_of api_key days destination budget interests notes)
                     = Raised (InvalidArgument m).
Proof.
  intros [classify H].
  pose proof (proj2 (H (raising (InvalidArgument "API key not valid")) "key" "Paris" 2
                        "Budget" [] "")) as Hauth.
  pose proof (proj1 (H (raising (OtherExc invalid_key_message)) "key" "Paris" 2
                        "Budget" [] "")) as Hother.
  simpl in Hauth, Hother.
  destruct Hother as [m Hm].
  - apply Hauth. exists "API key not valid". reflexivity.
  - discriminate Hm.
Qed.

(** C2 (amended): the result is one of two dict shapes, status "success"
    with the data or status "error" with a message. An auth rejection
    ([InvalidArgument]) gives status "error" with the fixed message
    [invalid_key_message]; any other exception gives status "error" with
    [str(e)]; a reply that does not parse gives status "error" with the
    decoder's message; a reply that parses gives status "success". *)
Theorem C2_two_status_results backend api_key destination days budget interests notes :
  let r := fst (generate_itinerary backend api_key destination days budget interests notes) in
  let req := request_of api_key days destination budget interests notes in
  (status r = "success" \/ status r = "error") /\
  (forall m, backend req = Raised (InvalidArgument m) -> r = GenError invalid_key_message) /\
  (forall m, backend req = Raised (OtherExc m) -> r = GenError m) /\
  (forall text, backend req = Replied text ->
     match json_loads text with
     | inl e => r = GenError (decode_error_str text e)
     | inr j => r = GenSuccess j
     end).
Proof.
  cbv zeta. unfold generate_itinerary; simpl.
  repeat split; intros; try (rewrite H; reflexivity).
  - destruct (backend _) as [t|[m|m]]; simpl;
      [destruct (json_loads t); simpl|..]; auto.
  - rewrite H. destruct (json_loads text); reflexivity.
Qed.

Lemma C2_witness :
  fst (generate_itinerary (raising (InvalidArgument "API key not valid")) "key" "Paris" 2
         "Budget" [] "") = GenError invalid_key_message.
Proof.
  apply (proj1 (proj2 (C2_two_status_results (raising (InvalidArgument "API key not valid"))
                          "key" "Paris" 2 "Budget" [] "")) "API key not valid").
  reflexivity.
Defined.

(** (C3, counterexample) When day 1 has no activity and day 2 has one, the
    map is shown, but there is no first activity of day 1 for its focal
    point to equal: it is day 2's first activity. *)
Lemma C3_counterexample :
  ~ (forall it : Schema.TripItinerary,
       (Render.all_coords it = [] -> Render.map_view it = Render.MapEmpty) /\
       (Render.all_coords it <> [] ->
          exists v c, Render.map_view it = Render.MapShown v /\
                      Spec.first_day_first_coord it = Some c /\
                      Render.location v = c)).
Proof.
  intros H. destruct (H empty_first_day) as [_ H2].
  destruct H2 as [v [c [_ [Hc _]]]]; [discriminate|].
  discriminate Hc.
Qed.

(** C3 (amended): the map is Empty exactly when no day has an activity.
    Otherwise, when no coordinate is NaN, the map is shown and its focal
    point is the first collected coordinate, that of the first activity of
    the first day (in list order) that has any activity; in particular,
    when the first day has an activity, the focal point is that activity's
    coordinate.  When some coordinate is NaN, folium raises ValueError
    "Location values cannot contain NaNs." and no map is shown. *)
Theorem C3_focus_first_activity (it : Schema.TripItinerary) :
  (Render.all_coords it = [] <-> Render.map_view it = Render.MapEmpty) /\
  (forall empty_days d later a acts,
     Schema.itinerary it = (empty_days ++ d :: later)%list ->
     Forall (fun d => Schema.activities d = []) empty_days ->
     Schema.activities d = a :: acts ->
     forallb Render.location_ok (Render.all_coords it) = true ->
     exists v, Render.map_view it = Render.MapShown v /\
               Render.location v = (Schema.latitude a, Schema.longitude a)) /\
  (Render.all_coords it <> [] ->
     forallb Render.location_ok (Render.all_coords it) = false ->
     Render.map_view it = Render.MapRaised Render.nan_message).
Proof.
  split; [apply MapFacts.map_view_empty_iff|split].
  - intros pre d post a acts Hit Hpre Hd Hok.
    apply MapFacts.map_view_location with
      (rest := (map (fun a => (Schema.latitude a, Schema.longitude a)) acts
                ++ Render.all_coords (Schema.mkTripItinerary "" "" [] post))%list);
      [|exact Hok].
    unfold Render.all_coords. rewrite Hit, MapFacts.all_coords_skip_empty by exact Hpre.
    simpl. rewrite Hd. reflexivity.
  - apply MapFacts.map_view_nan.
Qed.

Lemma C3_witness :
  (exists v, Render.map_view empty_first_day = Render.MapShown v /\
             Render.location v = (Fin 48 0, Fin 2 0)) /\
  Render.map_view nan_trip = Render.MapRaised Render.nan_message.
Proof.
  split.
  - apply (proj1 (proj2 (C3_focus_first_activity empty_first_day))
             [Schema.mkDailyPlan 1 "Arrival" []] (Schema.mkDailyPlan 2 "Museums" [stop "Louvre" 48 2])
             [] (stop "Louvre" 48 2) []); simpl.
    + reflexivity.
    + repeat constructor.
    + reflexivity.
    + reflexivity.
  - apply (proj2 (proj2 (C3_focus_first_activity nan_trip))).
    + discriminate.
    + reflexivity.
Defined.

(** C4: the day colour is the entry at [(day - 1) mod 19] of the fixed
    palette [colors], which has 19 pairwise distinct named colours (at
    least 16); it is always a palette entry and cycles with period 19; the
    same selection on any 16-colour palette gives index 0 on day 17 (on
    the program's 19-colour palette day 17 is index 16, "gray"). *)
Theorem C4_day_color_cycles :
  NoDup Render.colors /\ (16 <= List.length Render.colors)%nat /\
  (forall d, Render.day_color d = nth (Z.to_nat ((d - 1) mod 19)) Render.colors "" /\
             In (Render.day_color d) Render.colors /\
             Render.day_color (d + 19) = Render.day_color d) /\
  (forall palette, List.length palette = 16%nat ->
     Render.pick_color palette 17 = nth 0 palette "") /\
  Render.day_color 17 = "gray".
Proof.
  split; [|split; [|split; [|split]]].
  - unfold Render.colors.
    repeat constructor; simpl; intros Hin; repeat destruct Hin as [Hin|Hin];
      try discriminate; exact Hin.
  - simpl. lia.
  - intros d. unfold Render.day_color, Render.pick_color. simpl (List.length _).
    split; [reflexivity|]. split.
    + apply nth_In. simpl (List.length _).
      pose proof (Z.mod_pos_bound (d - 1) 19 ltac:(lia)). lia.
    + replace (d + 19 - 1) with ((d - 1) + 1 * 19) by lia.
      rewrite Z.mod_add by lia. reflexivity.
  - intros palette Hlen. unfold Render.pick_color. rewrite Hlen. reflexivity.
  - reflexivity.
Qed.

Lemma C4_witness :
  Render.pick_color (List.repeat "red" 15 ++ ["blue"])%list 17 = "red".
Proof.
  apply (proj1 (proj2 (proj2 (proj2 C4_day_color_cycles)))
           (List.repeat "red" 15 ++ ["blue"])%list).
  reflexivity.
Defined.

(** C5: on a run where the generate button was pressed the slot is first
    cleared (both [None]); whatever the outcome (success, failure, missing
    key, missing destination) it ends holding at most one of itinerary and
    error, and what it holds does not depend on what it held before; runs
    without the button leave it unchanged, so the slot never holds both. *)
Theorem C5_single_slot backend (inp : App.Inputs) :
  App.generate_btn inp = true ->
  (forall s, App.reset_slot s = App.initial_session) /\
  (forall s, at_most_one (App.session_of (App.run backend inp s))) /\
  (forall s s', App.session_of (App.run backend inp s)
                = App.session_of (App.run backend inp s')) /\
  (forall s, App.itinerary_data (App.session_of (App.run backend inp s)) <> None ->
     exists d, App.itinerary_data (App.session_of (App.run backend inp s)) = Some d /\
       fst (generate_itinerary backend
              (match App.api_key inp with Some k => k | None => "" end)
              (App.destination inp) (App.duration_days inp) (App.budget_level inp)
              (App.interests inp) (App.additional_notes inp)) = GenSuccess d).
Proof.
  intros Hbtn. unfold App.run. rewrite Hbtn.
  split; [reflexivity|]. split; [|split].
  - intros s. unfold at_most_one.
    destruct (App.api_key inp) as [k|]; [|simpl; auto].
    destruct (App.key_missing (Some k)); [simpl; auto|].
    destruct (App.destination inp); [simpl; auto|];
      destruct (generate_itinerary _ _ _ _ _ _ _) as [[d|m] calls]; simpl; auto.
  - intros s s'. reflexivity.
  - intros s.
    destruct (App.api_key inp) as [k|]; [|simpl; tauto].
    destruct (App.key_missing (Some k)); [simpl; tauto|].
    destruct (App.destination inp); [simpl; tauto|];
      destruct (generate_itinerary _ _ _ _ _ _ _) as [[d|m] calls]; simpl;
      [intros _; exists d; split; reflexivity | tauto].
Qed.

Lemma C5_witness :
  at_most_one (App.session_of (App.run (replying "not json") (pressed (Some "key") "Paris")
                 (App.mkSession (Some JNull) None))).
Proof.
  apply (proj1 (proj2 (C5_single_slot (replying "not json") (pressed (Some "key") "Paris")
                         eq_refl))).
Defined.

(** (C6, counterexample) Not every reply that is not valid JSON gives an
    error: [NaN] is not JSON by RFC 8259, but [json.loads] accepts it and
    the call returns status "success" with the float nan. *)
Lemma C6_counterexample :
  Spec.rfc8259_text "NaN" = false /\
  fst (generate_itinerary (replying "NaN") "key" "Paris" 2 "Budget" [] "")
  = GenSuccess (JFloat NaN) /\
  ~ (forall backend api_key destination days budget interests notes text,
       backend (request_of api_key days destination budget interests notes) = Replied text ->
       Spec.rfc8259_text text = false ->
       exists m, fst (generate_itinerary backend api_key destination days budget interests notes)
                 = GenError m).
Proof.
  split; [vm_compute; reflexivity|]. split; [vm_compute; reflexivity|].
  intros H.
  destruct (H (replying "NaN") "key" "Paris" 2 "Budget" [] "" "NaN" eq_refl) as [m Hm];
    [vm_compute; reflexivity|].
  vm_compute in Hm. discriminate Hm.
Qed.

(** C6 (amended): a reply whose text [json.loads] rejects gives status
    "error" with the decoder's message ([str(e)]), and any exception other
    than [InvalidArgument] gives status "error" with [str(e)]; for the
    reply "not json" the message is "Expecting value: line 1 column 1
    (char 0)".  The texts [NaN], [Infinity] and [-Infinity], which are not
    JSON, are accepted and give status "success" with nan, inf and -inf.
    The function is total: every outcome of the backend yields a result. *)
Theorem C6_parse_and_other_failures backend api_key destination days budget interests notes :
  let r := fst (generate_itinerary backend api_key destination days budget interests notes) in
  let req := request_of api_key days destination budget interests notes in
  (forall text e, backend req = Replied text -> json_loads text = inl e ->
     r = GenError (decode_error_str text e)) /\
  (forall m, backend req = Raised (OtherExc m) -> r = GenError m) /\
  (backend req = Replied "not json" ->
     r = GenError "Expecting value: line 1 column 1 (char 0)") /\
  (backend req = Replied "NaN" -> r = GenSuccess (JFloat NaN)) /\
  (backend req = Replied "Infinity" -> r = GenSuccess (JFloat PosInf)) /\
  (backend req = Replied "-Infinity" -> r = GenSuccess (JFloat NegInf)).
Proof.
  cbv zeta. unfold generate_itinerary; simpl.
  split; [|split; [|split; [|split; [|split]]]].
  - intros text e Hb He. rewrite Hb, He. reflexivity.
  - intros m Hb. rewrite Hb. reflexivity.
  - intros Hb. rewrite Hb. reflexivity.
  - intros Hb. rewrite Hb. reflexivity.
  - intros Hb. rewrite Hb. reflexivity.
  - intros Hb. rewrite Hb. reflexivity.
Qed.

Lemma C6_witness :
  fst (generate_itinerary (replying "not json") "key" "Paris" 2 "Budget" [] "")
  = GenError "Expecting value: line 1 column 1 (char 0)" /\
  fst (generate_itinerary (replying "Infinity") "key" "Paris" 2 "Budget" [] "")
  = GenSuccess (JFloat PosInf).
Proof.
  split.
  - apply (proj1 (proj2 (proj2 (C6_parse_and_other_failures (replying "not json") "key" "Paris" 2
                                  "Budget" [] "")))).
    reflexivity.
  - apply (proj1 (proj2 (proj2 (proj2 (proj2 (C6_parse_and_other_failures
                                             (replying "Infinity") "key" "Paris" 2
                                             "Budget" [] "")))))).
    reflexivity.
Defined.

(** C7: when the key is unset, empty or the placeholder
    "your_api_key_here", no request reaches the backend in the run, and a
    pressed button shows the missing-key error. *)
Theorem C7_no_call_without_key backend (inp : App.Inputs) (s : App.Session) :
  App.api_key inp = None \/ App.api_key inp = Some "" \/
  App.api_key inp = Some "your_api_key_here" ->
  App.calls_of (App.run backend inp s) = [] /\
  (App.generate_btn inp = true ->
   App.messages_of (App.run backend inp s) = [App.UiError App.missing_key_message]).
Proof.
  intros Hkey. unfold App.run.
  destruct (App.generate_btn inp); [|split; [reflexivity | discriminate]].
  destruct Hkey as [H|[H|H]]; rewrite H; split; reflexivity.
Qed.

Lemma C7_witness :
  App.calls_of (App.run (replying "not json") (pressed (Some "") "Paris") App.initial_session) = [].
Proof.
  apply (proj1 (C7_no_call_without_key (replying "not json") (pressed (Some "") "Paris")
                  App.initial_session (or_intror (or_introl eq_refl)))).
Defined.

(** C8: the prompt contains the destination, the day count as [str(days)]
    (in "Create a detailed <days>-day itinerary for <destination>.") and the
    budget text; with no interests it contains the default phrase
    "General sightseeing"; with empty notes the notes clause
    ["\nAdditional Notes: <notes>"] is left out entirely: the prompt is the
    one for any non-empty notes with that clause cut out. *)
Theorem C8_prompt_contents days destination budget interests notes :
  let p := prompt days destination budget interests notes in
  contains destination p /\
  contains (py_str_int days) p /\
  contains ("    Create a detailed " ++ py_str_int days ++ "-day itinerary for "
            ++ destination ++ ".") p /\
  contains budget p /\
  (interests = [] -> contains ("    - Interests: " ++ "General sightseeing" ++ ".") p) /\
  (notes = "" -> forall notes', notes' <> "" ->
     exists pre post,
       prompt days destination budget interests notes'
       = pre ++ nl ++ "Additional Notes: " ++ notes' ++ post /\
       p = pre ++ post).
Proof.
  cbv zeta.
  pose proof (PromptFacts.prompt_contains_day_and_destination days destination budget
                interests notes) as Hday.
  split; [|split; [|split; [|split; [|split]]]].
  - eapply contains_trans; [|exact Hday].
    exists ("    Create a detailed " ++ py_str_int days ++ "-day itinerary for "), ".".
    rewrite !str_app_assoc. reflexivity.
  - eapply contains_trans; [|exact Hday].
    exists "    Create a detailed ", ("-day itinerary for " ++ destination ++ ".").
    reflexivity.
  - exact Hday.
  - eapply contains_trans; [|apply PromptFacts.prompt_contains_budget].
    exists "    - Budget Level: ",
      ". Prioritize free activities, student discounts, street food, and cheap transport.".
    reflexivity.
  - intros ->. apply (PromptFacts.prompt_contains_interests days destination budget [] notes).
  - intros -> notes' Hn.
    exists (Spec.prompt_head days destination budget interests), Spec.prompt_tail.
    rewrite !PromptFacts.prompt_split. split.
    + destruct notes' as [|c n']; [congruence|]. unfold notes_str.
      rewrite !str_app_assoc. reflexivity.
    + reflexivity.
Qed.

Lemma C8_witness :
  contains ("    - Interests: " ++ "General sightseeing" ++ ".")
    (prompt 2 "Paris, France" "Budget" [] "").
Proof.
  apply (proj1 (proj2 (proj2 (proj2 (proj2 (C8_prompt_contents 2 "Paris, France" "Budget"
                                                [] "")))))).
  reflexivity.
Defined.




(** C10: when the button is pressed with an empty destination, no request
    reaches the backend and the slot ends with neither itinerary nor error,
    whatever it held before. *)
Theorem C10_empty_destination backend (inp : App.Inputs) (s : App.Session) :
  App.generate_btn inp = true ->
  App.destination inp = "" ->
  App.calls_of (App.run backend inp s) = [] /\
  App.session_of (App.run backend inp s) = App.initial_session.
Proof.
  intros Hbtn Hdest. unfold App.run. rewrite Hbtn, Hdest.
  destruct (App.api_key inp) as [k|]; [|split; reflexivity].
  destruct (App.key_missing (Some k)); split; reflexivity.
Qed.

Lemma C10_witness :
  App.calls_of (App.run (replying "not json") (pressed (Some "key") "")
                  (App.mkSession (Some JNull) None)) = [] /\
  App.session_of (App.run (replying "not json") (pressed (Some "key") "")
                    (App.mkSession (Some JNull) None)) = App.initial_session.
Proof.
  apply (C10_empty_destination (replying "not json") (pressed (Some "key") "")
           (App.mkSession (Some JNull) None)); reflexivity.
Defined.

End Claims.

(* ================================================================== *)
(** * Further properties of the code *)

Module Extras.
Import Schema Planner Page PageFacts.

(** X2: a failed generation whose message is empty (for instance an
    exception whose [str] is empty) is not reported: the error slot holds
    [""], which is falsy, and the page shows the welcome state. *)
Theorem run_empty_error_silent chk backend inp s :
  will_call inp -> fst (call_of backend inp) = GenError "" ->
  page chk (App.session_of (App.run backend inp s)) = welcome_page.
Proof. intros Hw Hr. rewrite (run_error_session backend inp s "" Hw Hr). reflexivity. Qed.

Lemma run_empty_error_silent_witness :
  page folium_lenient
    (App.session_of (App.run (raising (OtherExc "")) (pressed (Some "key") "Paris")
                       App.initial_session)) = welcome_page.
Proof.
  apply run_empty_error_silent.
  - split; [reflexivity | split; [reflexivity | discriminate]].
  - vm_compute. reflexivity.
Defined.

(** X3: a reply that parses to a falsy value ([{}], [[]], [0], [null],
    [""], [false]) counts as success, and the page then shows the welcome
    state as if nothing had been generated. *)
Theorem run_falsy_reply_welcome chk backend inp s d :
  will_call inp -> fst (call_of backend inp) = GenSuccess d -> truthy d = false ->
  page chk (App.session_of (App.run backend inp s)) = welcome_page.
Proof.
  intros Hw Hr Hf. rewrite (run_success_session backend inp s d Hw Hr).
  apply page_falsy. exact Hf.
Qed.

Lemma run_falsy_reply_welcome_witness :
  page folium_lenient
    (App.session_of (App.run (replying "{}") (pressed (Some "key") "Paris")
                       App.initial_session)) = welcome_page.
Proof.
  apply (run_falsy_reply_welcome folium_lenient (replying "{}") (pressed (Some "key") "Paris")
           App.initial_session (JObj [])).
  - split; [reflexivity | split; [reflexivity | discriminate]].
  - vm_compute. reflexivity.
  - reflexivity.
Defined.





(** X6: truthy data that is not a dict (a non-empty list or string, a
    non-zero number, [true]) shows only the two titles and stops with a
    [TypeError] at [itinerary_data['destination']]. *)
Theorem page_non_dict chk d :
  truthy d = true -> (forall kv, d <> JObj kv) ->
  exists msg, page chk (App.mkSession (Some d) None) = ([MainTitle; SubTitle], Some (TypeError msg)).
Proof.
  intros Ht Hd. rewrite page_body by exact Ht.
  destruct d as [| | | | | |kv]; try discriminate;
    [eexists; reflexivity .. | exfalso; exact (Hd kv eq_refl)].
Qed.

Lemma page_non_dict_witness :
  exists msg, page folium_lenient (App.mkSession (Some (JArr [JNull])) None)
              = ([MainTitle; SubTitle], Some (TypeError msg)).
Proof. apply page_non_dict; [reflexivity | discriminate]. Defined.





(** X10: on the typed map view, the markers sit exactly at the bound
    coordinates, in order; the map is centred on the first of them; and
    every marker's colour is one of the palette's. *)
Theorem map_view_markers t v :
  Render.map_view t = Render.MapShown v ->
  map Render.marker_location (Render.markers v) = Render.fit_bounds v /\
  hd_error (Render.fit_bounds v) = Some (Render.location v) /\
  Forall (fun m => In (Render.icon_color m) Render.colors) (Render.markers v).
Proof.
  unfold Render.map_view. destruct (Render.all_coords t) as [|c0 cs] eqn:Hc; [discriminate|].
  cbv zeta. destruct (_ && _); [|discriminate].
  intros Hv. injection Hv as <-. simpl. split; [|split; [reflexivity|]].
  - rewrite MapFacts.markers_locations. exact Hc.
  - apply Forall_forall. intros m Hm.
    apply in_flat_map in Hm. destruct Hm as [d [_ Hm]].
    apply in_map_iff in Hm. destruct Hm as [a [<- _]]. apply day_color_in.
Qed.

Lemma map_view_markers_witness :
  map Render.marker_location
    (match Render.map_view paris_trip with Render.MapShown v => Render.markers v | _ => [] end)
  = [(Fin 485 (-1), Fin 25 (-1))].
Proof.
  destruct (map_view_markers paris_trip
              (Render.mkMapView (Fin 485 (-1), Fin 25 (-1))
                 [Render.marker (mkDailyPlan 1 "Museums" [louvre]) "red" louvre]
                 [(Fin 485 (-1), Fin 25 (-1))]) eq_refl) as [H _].
  exact H.
Defined.

(** X11: an error box appears on the page, at any depth, only when the
    slot holds a non-empty error message, and then it reads "Failed to
    generate itinerary: <message>"; rendering data or the welcome state
    never puts one there, not even inside the budget-tips expander or a
    day's container. *)
Theorem error_box_only_from_slot chk s msg :
  In msg (flat_map error_boxes (fst (page chk s))) ->
  exists c m, App.error_message s = Some (String c m) /\
              msg = "Failed to generate itinerary: " ++ String c m.
Proof.
  intros Hin.
  destruct (App.error_message s) as [[|c m]|] eqn:He.
  - exfalso.
    assert (Hnb : forall c m, App.error_message s <> Some (String c m))
      by (intros c0 m0; congruence).
    rewrite (nb_page chk s Hnb) in Hin. exact Hin.
  - exists c, m. split; [reflexivity|].
    destruct s as [d err]. simpl in He. subst err.
    simpl in Hin. destruct Hin as [<-|[]]. reflexivity.
  - exfalso.
    assert (Hnb : forall c m, App.error_message s <> Some (String c m))
      by (intros c0 m0; congruence).
    rewrite (nb_page chk s Hnb) in Hin. exact Hin.
Qed.

Lemma error_box_only_from_slot_witness :
  exists c m, App.error_message (App.mkSession None (Some "boom")) = Some (String c m) /\
              "Failed to generate itinerary: boom" = "Failed to generate itinerary: " ++ String c m.
Proof.
  apply (error_box_only_from_slot folium_lenient (App.mkSession None (Some "boom"))).
  simpl. left. reflexivity.
Defined.

(** X12: a run where the button is pressed but the key is unusable or the
    destination is empty leaves the page in the welcome state, whatever
    itinerary or error the page showed before. *)
Theorem run_rejected_welcome chk backend inp s :
  App.generate_btn inp = true ->
  App.key_missing (App.api_key inp) = true \/ App.destination inp = "" ->
  page chk (App.session_of (App.run backend inp s)) = welcome_page.
Proof.
  intros Hb Hr. unfold App.run. rewrite Hb.
  destruct (App.api_key inp) as [k|]; [|reflexivity].
  destruct (App.key_missing (Some k)) eqn:Hk; [reflexivity|].
  destruct Hr as [Hr|Hr]; [discriminate|]. rewrite Hr. reflexivity.
Qed.

Lemma run_rejected_welcome_witness :
  page folium_lenient
    (App.session_of (App.run (replying paris_json) (pressed (Some "your_api_key_here") "Paris")
                       (App.mkSession (Some (encode_trip paris_trip)) None))) = welcome_page.
Proof. apply run_rejected_welcome; [reflexivity | left; reflexivity]. Defined.

(** X14: no run ever sends an unusable key: every request that reaches
    the backend carries the environment's key, which is neither empty nor
    the placeholder "your_api_key_here". *)
Theorem run_never_sends_unusable_key backend inp s r :
  In r (App.calls_of (App.run backend inp s)) ->
  App.api_key inp = Some (req_api_key r) /\
  req_api_key r <> "" /\ req_api_key r <> "your_api_key_here".
Proof.
  unfold App.run. destruct (App.generate_btn inp); [|simpl; tauto].
  destruct (App.api_key inp) as [k|]; [|simpl; tauto].
  destruct (App.key_missing (Some k)) eqn:Hk; [simpl; tauto|].
  destruct (App.destination inp) as [|c rest]; [simpl; tauto|].
  unfold generate_itinerary. cbv zeta.
  destruct (match _ with Replied _ => _ | Raised _ => _ end) as [d|m];
    simpl; intros [<-|[]]; simpl;
    (split; [reflexivity|]);
    (destruct k as [|c0 k']; [discriminate|]);
    (split; [discriminate|]); intros Heq; rewrite Heq in Hk; discriminate.
Qed.

Lemma run_never_sends_unusable_key_witness :
  App.api_key (pressed (Some "key") "Paris") = Some "key" /\ "key" <> "" /\ "key" <> "your_api_key_here".
Proof.
  apply (run_never_sends_unusable_key (replying "{}") (pressed (Some "key") "Paris")
           App.initial_session
           (request_of "key" 3 "Paris" "Budget" ["History"; "Food"] "")).
  simpl. left. reflexivity.
Defined.

(** X15: end to end, a run whose call is rejected for its key shows the
    error box with the fixed invalid-key message, and a run whose reply
    does not parse shows the error box with the decoder's message and
    position; neither raises. *)
Theorem run_failure_pages chk backend inp s :
  will_call inp ->
  let req := request_of (key_of inp) (App.duration_days inp) (App.destination inp)
               (App.budget_level inp) (App.interests inp) (App.additional_notes inp) in
  (forall m, backend req = Raised (InvalidArgument m) ->
     page chk (App.session_of (App.run backend inp s)) = error_page invalid_key_message) /\
  (forall text e, backend req = Replied text -> json_loads text = inl e ->
     page chk (App.session_of (App.run backend inp s)) = error_page (decode_error_str text e)).
Proof.
  intros Hw req. split.
  - intros m Hb.
    assert (Hr : fst (call_of backend inp) = GenError invalid_key_message)
      by exact (call_raised backend inp (InvalidArgument m) Hb).
    rewrite (run_error_session backend inp s _ Hw Hr). reflexivity.
  - intros text e Hb Hj.
    assert (Hr : fst (call_of backend inp) = GenError (decode_error_str text e))
      by (rewrite (call_replied backend inp text Hb), Hj; reflexivity).
    rewrite (run_error_session backend inp s _ Hw Hr).
    destruct (decode_error_str_nonempty text e) as [c [r He]]. rewrite He. reflexivity.
Qed.

Lemma run_failure_pages_witness :
  page folium_lenient
    (App.session_of (App.run (replying "not json") (pressed (Some "key") "Paris")
                       App.initial_session))
  = error_page (decode_error_str "not json" (mkJErr "Expecting value" "not json")).
Proof.
  refine (proj2 (run_failure_pages folium_lenient (replying "not json")
                   (pressed (Some "key") "Paris") App.initial_session _)
            "not json" (mkJErr "Expecting value" "not json") eq_refl _).
  - split; [reflexivity | split; [reflexivity | discriminate]].
  - vm_compute. reflexivity.
Defined.

End Extras.
